(** * Portfolio content API: models, serialization and endpoints

    A shallow embedding of [models.py] and [app.py].  Python values that
    reach [jsonify] are terms of [value]; dictionaries are insertion-ordered
    association lists with unique keys, as CPython's [dict]; the
    SQLAlchemy session is an explicit state threaded through the handlers,
    and Python exceptions are the error side of a small state-and-error
    monad. *)

From stdpp Require Import prelude strings.
From Stdlib Require Import ZArith Ascii String Lia.

Local Set Warnings "-register-all".
Local Open Scope string_scope.
Local Open Scope list_scope.

(** ** Python values *)

Module Py.

(** The JSON-compatible fragment of Python's object universe (numbers are
    integers). *)
Inductive value : Type :=
| VNone
| VBool (b : bool)
| VInt (z : Z)
| VStr (s : string)
| VList (l : list value)
| VDict (d : list (string * value)).

(** An insertion-ordered dictionary with string keys. *)
Definition pydict (V : Type) : Type := list (string * V).

(** [bool(v)]: the truth value Python gives to [v]. *)
Definition truthy (v : value) : bool :=
  match v with
  | VNone => false
  | VBool b => b
  | VInt z => negb (Z.eqb z 0)
  | VStr s => negb (String.eqb s "")
  | VList l => match l with [] => false | _ => true end
  | VDict d => match d with [] => false | _ => true end
  end.

Definition str_truthy (s : string) : bool := negb (String.eqb s "").

(** [k in d] *)
Fixpoint dict_contains {V} (k : string) (d : pydict V) : bool :=
  match d with
  | [] => false
  | (k', _) :: d' => if String.eqb k k' then true else dict_contains k d'
  end.

(** [d.get(k)], with [None] for a missing key. *)
Fixpoint dict_get {V} (k : string) (d : pydict V) : option V :=
  match d with
  | [] => None
  | (k', v) :: d' => if String.eqb k k' then Some v else dict_get k d'
  end.

(** [d[k] = v]: overwrite in place, or append a new key at the end. *)
Fixpoint dict_setitem {V} (k : string) (v : V) (d : pydict V) : pydict V :=
  match d with
  | [] => [(k, v)]
  | (k', v') :: d' =>
      if String.eqb k k' then (k', v) :: d' else (k', v') :: dict_setitem k v d'
  end.

Definition dict_keys {V} (d : pydict V) : list string := map fst d.
Definition dict_values {V} (d : pydict V) : list V := map snd d.

(** [s.split(sep)] for a one-character separator: never the empty list. *)
Fixpoint split (sep : ascii) (s : string) : list string :=
  match s with
  | EmptyString => [EmptyString]
  | String c s' =>
      if Ascii.eqb c sep then EmptyString :: split sep s'
      else match split sep s' with
           | [] => [String c EmptyString]
           | w :: ws => String c w :: ws
           end
  end.

(** [sep.join(l)] *)
Fixpoint join (sep : ascii) (l : list string) : string :=
  match l with
  | [] => EmptyString
  | [w] => w
  | w :: ws => w ++ String sep (join sep ws)
  end.

(** [s.isspace()]: at least one character and all of them ASCII
    whitespace (space, tab, newline, vertical tab, form feed, return). *)
Definition is_space_char (c : ascii) : bool :=
  let n := nat_of_ascii c in
  (n =? 32)%nat || ((9 <=? n)%nat && (n <=? 13)%nat).

Fixpoint all_space (s : string) : bool :=
  match s with
  | EmptyString => true
  | String c s' => is_space_char c && all_space s'
  end.

Definition isspace (s : string) : bool := str_truthy s && all_space s.

(** Exceptions the handlers can meet. *)
Inductive exn : Type :=
| AttributeError
| KeyError
| TypeError
| SQLAlchemyError.

End Py.

(** ** models.py *)

Module Models.
Import Py.

(** [datetime.date] and [datetime.datetime] (microseconds play no part in
    the formats used here). *)
Record date : Type := Date { year : Z; month : Z; day : Z }.

Record datetime : Type :=
  DateTime { dt_date : date; hour : Z; minute : Z; second : Z }.

Definition is_leap (y : Z) : bool :=
  ((y mod 4 =? 0) && negb (y mod 100 =? 0) || (y mod 400 =? 0))%Z.

Definition days_in_month (y m : Z) : Z :=
  match m with
  | 2 => if is_leap y then 29 else 28
  | 4 | 6 | 9 | 11 => 30
  | _ => 31
  end%Z.

(** The values the [date] constructor accepts: MINYEAR = 1, MAXYEAR = 9999. *)
Definition valid_date (d : date) : bool :=
  ((1 <=? year d) && (year d <=? 9999) &&
   (1 <=? month d) && (month d <=? 12) &&
   (1 <=? day d) && (day d <=? days_in_month (year d) (month d)))%Z.

(** Instances of [date] and [datetime] define no [__bool__]: all are true. *)
Definition date_truthy (_ : date) : bool := true.
Definition datetime_truthy (_ : datetime) : bool := true.

Definition digit (n : Z) : ascii := ascii_of_nat (Z.to_nat (48 + n mod 10)).

(** Zero-padded decimal fields of [strftime]: [%m %d %H %M %S] and [%Y]. *)
Definition pad2 (n : Z) : string :=
  String (digit (n / 10)) (String (digit n) EmptyString).

Definition pad4 (n : Z) : string :=
  String (digit (n / 1000)) (String (digit (n / 100)) (pad2 n)).

(** [d.strftime('%Y-%m-%d')] *)
Definition strftime_date (d : date) : string :=
  pad4 (year d) ++ "-" ++ pad2 (month d) ++ "-" ++ pad2 (day d).

(** [t.strftime('%Y-%m-%d %H:%M:%S')] *)
Definition strftime_datetime (t : datetime) : string :=
  strftime_date (dt_date t) ++ " " ++
  pad2 (hour t) ++ ":" ++ pad2 (minute t) ++ ":" ++ pad2 (second t).

(** Column types follow the declarations: [nullable=False] columns hold a
    plain value, the others may hold [None]. *)
Record Project : Type := {
  project_id : Z;
  title : string;
  description : string;
  tech_stack : string;
  date_created : date;
  github_url : option string;
  demo_url : option string;
  image_url : option string;
  featured : option bool;
  project_created_at : option datetime
}.

Record Skill : Type := {
  skill_id : Z;
  skill_name : string;
  category : string;
  proficiency_level : option Z;
  icon_class : option string;
  skill_created_at : option datetime
}.

(** A [ContactMessage] object.  The handler stores whatever JSON values the
    request carried, so the submitted attributes are [value]s; [id],
    [created_at] and [read_status] stay [None] until the row is written. *)
Record ContactMessage : Type := {
  cm_id : option Z;
  cm_name : value;
  cm_email : value;
  cm_subject : value;
  cm_message : value;
  ip_address : value;
  cm_created_at : option datetime;
  read_status : option bool
}.

Definition opt_str (o : option string) : value :=
  match o with Some s => VStr s | None => VNone end.
Definition opt_bool (o : option bool) : value :=
  match o with Some b => VBool b | None => VNone end.
Definition opt_int (o : option Z) : value :=
  match o with Some z => VInt z | None => VNone end.

(** [x.strftime('%Y-%m-%d %H:%M:%S') if x else None] *)
Definition created_at_value (o : option datetime) : value :=
  match o with
  | Some t => if datetime_truthy t then VStr (strftime_datetime t) else VNone
  | None => VNone
  end.

(** [s.split(',') if s else []] *)
Definition tech_stack_value (s : string) : value :=
  if str_truthy s then VList (map VStr (split "," s)) else VList [].

(** [d.strftime('%Y-%m-%d') if d else None] *)
Definition date_created_value (d : date) : value :=
  if date_truthy d then VStr (strftime_date d) else VNone.

(** [Project.to_dict] *)
Definition Project_to_dict (self : Project) : pydict value :=
  [ ("id", VInt (project_id self));
    ("title", VStr (title self));
    ("description", VStr (description self));
    ("tech_stack", tech_stack_value (tech_stack self));
    ("date_created", date_created_value (date_created self));
    ("github_url", opt_str (github_url self));
    ("demo_url", opt_str (demo_url self));
    ("image_url", opt_str (image_url self));
    ("featured", opt_bool (featured self));
    ("created_at", created_at_value (project_created_at self)) ].

(** [Skill.to_dict] *)
Definition Skill_to_dict (self : Skill) : pydict value :=
  [ ("id", VInt (skill_id self));
    ("name", VStr (skill_name self));
    ("category", VStr (category self));
    ("proficiency_level", opt_int (proficiency_level self));
    ("icon_class", opt_str (icon_class self));
    ("created_at", created_at_value (skill_created_at self)) ].

(** [ContactMessage.to_dict] *)
Definition ContactMessage_to_dict (self : ContactMessage) : pydict value :=
  [ ("id", opt_int (cm_id self));
    ("name", cm_name self);
    ("email", cm_email self);
    ("subject", cm_subject self);
    ("message", cm_message self);
    ("ip_address", ip_address self);
    ("created_at", created_at_value (cm_created_at self));
    ("read_status", opt_bool (read_status self)) ].

End Models.

(** ** The SQLAlchemy session *)

Module Db.
Import Py Models.

(** The three tables, rows in [rowid] order. *)
Record Database : Type := {
  projects : list Project;
  skills : list Skill;
  contact_messages : list ContactMessage
}.

(** [db.session]: the database it is bound to and the objects added but
    not yet written ([session.new]). *)
Record Session : Type := {
  database : Database;
  session_new : list ContactMessage
}.

(** What the world outside the handler decides during one request: the
    clock behind [default=datetime.utcnow], and whether the storage engine
    refuses a read or a write. *)
Record Backend : Type := {
  utcnow : datetime;
  query_fails : bool;
  commit_fails : bool
}.

Inductive result (A : Type) : Type :=
| Ok (a : A)
| Raise (e : exn).
Arguments Ok {A} a.
Arguments Raise {A} e.

(** Computations that read and write the session and may raise. *)
Definition M (A : Type) : Type := Session -> result A * Session.

Definition ret {A} (a : A) : M A := fun s => (Ok a, s).

Definition raise {A} (e : exn) : M A := fun s => (Raise e, s).

Definition bind {A B} (m : M A) (k : A -> M B) : M B :=
  fun s =>
    match m s with
    | (Ok a, s') => k a s'
    | (Raise e, s') => (Raise e, s')
    end.

(** [try: body  except Exception as e: handler] *)
Definition try_except {A} (body : M A) (handler : exn -> M A) : M A :=
  fun s =>
    match body s with
    | (Ok a, s') => (Ok a, s')
    | (Raise e, s') => handler e s'
    end.

Notation "'do' x <- m ; k" := (bind m (fun x => k))
  (at level 10, x name, m at level 100, k at level 200).
Notation "'exec' m ; k" := (bind m (fun _ => k))
  (at level 10, m at level 100, k at level 200).

(** A [for] loop whose body may raise. *)
Fixpoint for_each {A B} (body : B -> A -> M B) (l : list A) (acc : B) : M B :=
  match l with
  | [] => ret acc
  | x :: l' => do acc' <- body acc x; for_each body l' acc'
  end.

(** [Project.query.all()] *)
Definition Project_query_all (be : Backend) : M (list Project) :=
  fun s =>
    if query_fails be then (Raise SQLAlchemyError, s)
    else (Ok (projects (database s)), s).

Definition is_featured (p : Project) : bool :=
  match featured p with Some true => true | _ => false end.

(** [Project.query.filter_by(featured=True).all()] *)
Definition Project_query_featured (be : Backend) : M (list Project) :=
  fun s =>
    if query_fails be then (Raise SQLAlchemyError, s)
    else (Ok (List.filter is_featured (projects (database s))), s).

(** [Skill.query.all()] *)
Definition Skill_query_all (be : Backend) : M (list Skill) :=
  fun s =>
    if query_fails be then (Raise SQLAlchemyError, s)
    else (Ok (skills (database s)), s).

(** The key SQLite gives to a new row: one more than the largest in use. *)
Definition next_id (rows : list ContactMessage) : Z :=
  (1 + fold_right Z.max 0 (map (fun m => default 0 (cm_id m)) rows))%Z.

(** Writing one object: the key is assigned and the column defaults
    ([created_at], [read_status]) fill what the object left unset. *)
Definition insert_row (be : Backend) (rows : list ContactMessage)
    (m : ContactMessage) : list ContactMessage :=
  rows ++
  [ {| cm_id := Some (default (next_id rows) (cm_id m));
       cm_name := cm_name m;
       cm_email := cm_email m;
       cm_subject := cm_subject m;
       cm_message := cm_message m;
       ip_address := ip_address m;
       cm_created_at := Some (default (utcnow be) (cm_created_at m));
       read_status := Some (default false (read_status m)) |} ].

Definition flush (be : Backend) (s : Session) : Database :=
  {| projects := projects (database s);
     skills := skills (database s);
     contact_messages :=
       fold_left (insert_row be) (session_new s) (contact_messages (database s)) |}.

(** [db.session.add(obj)] *)
Definition session_add (obj : ContactMessage) : M unit :=
  fun s => (Ok tt, {| database := database s;
                      session_new := session_new s ++ [obj] |}).

(** [db.session.commit()]: all pending objects are written, or the engine
    raises and nothing is. *)
Definition session_commit (be : Backend) : M unit :=
  fun s =>
    if commit_fails be then (Raise SQLAlchemyError, s)
    else (Ok tt, {| database := flush be s; session_new := [] |}).

(** [db.session.rollback()]: pending objects are expunged. *)
Definition session_rollback : M unit :=
  fun s => (Ok tt, {| database := database s; session_new := [] |}).

End Db.

(** ** app.py *)

Module App.
Import Py Models Db.

(** What Flask hands to a view: the body as [request.get_json()] returns it
    and the peer address, [request.remote_addr]. *)
Record Request : Type := {
  get_json : value;
  remote_addr : option string
}.

Record Response : Type := {
  body : value;
  status_code : Z
}.

(** [return jsonify(payload), code] *)
Definition jsonify (payload : pydict value) (code : Z) : Response :=
  {| body := VDict payload; status_code := code |}.

Definition error_envelope (code message : string) : pydict value :=
  [ ("status", VStr "error");
    ("error", VDict [ ("code", VStr code); ("message", VStr message) ]) ].

(** The dictionary both project endpoints append for each row. *)
Definition project_entry (project : Project) : pydict value :=
  [ ("id", VInt (project_id project));
    ("title", VStr (title project));
    ("description", VStr (description project));
    ("tech_stack", tech_stack_value (tech_stack project));
    ("date_created", date_created_value (date_created project));
    ("github_url", opt_str (github_url project));
    ("demo_url", opt_str (demo_url project));
    ("featured", opt_bool (featured project)) ].

(** [for project in projects: projects_data.append({...})] *)
Definition collect_projects (projects : list Project) : list (pydict value) :=
  fold_left (fun projects_data project => projects_data ++ [project_entry project])
            projects [].

Definition projects_envelope (projects_data : list (pydict value))
    (message : string) : pydict value :=
  [ ("status", VStr "success");
    ("data", VDict [ ("projects", VList (map VDict projects_data)) ]);
    ("message", VStr message) ].

(** [GET /api/projects] *)
Definition get_projects (be : Backend) : M Response :=
  try_except
    (do projects <- Project_query_all be;
     let projects_data := collect_projects projects in
     ret (jsonify (projects_envelope projects_data
                     "Projects retrieved successfully") 200))
    (fun e =>
       ret (jsonify (error_envelope "DATABASE_ERROR"
                       "Failed to retrieve projects") 500)).

(** [GET /api/projects/featured] *)
Definition get_featured_projects (be : Backend) : M Response :=
  try_except
    (do projects <- Project_query_featured be;
     let projects_data := collect_projects projects in
     ret (jsonify (projects_envelope projects_data
                     "Featured projects retrieved successfully") 200))
    (fun e =>
       ret (jsonify (error_envelope "DATABASE_ERROR"
                       "Failed to retrieve featured projects") 500)).

(** The dictionary [get_skills] appends for each row. *)
Definition skill_entry (skill : Skill) : pydict value :=
  [ ("id", VInt (skill_id skill));
    ("name", VStr (skill_name skill));
    ("proficiency_level", opt_int (proficiency_level skill));
    ("icon_class", opt_str (icon_class skill)) ].

(** [d[k]] on a dictionary of lists. *)
Definition dict_getitem {V} (k : string) (d : pydict V) : M V :=
  match dict_get k d with
  | Some v => ret v
  | None => raise KeyError
  end.

(** One turn of the loop in [get_skills]. *)
Definition group_skill (skills_by_category : pydict (list (pydict value)))
    (skill : Skill) : M (pydict (list (pydict value))) :=
  let category := category skill in
  let skills_by_category :=
    if negb (dict_contains category skills_by_category)
    then dict_setitem category [] skills_by_category
    else skills_by_category in
  do group <- dict_getitem category skills_by_category;
  ret (dict_setitem category (group ++ [skill_entry skill]) skills_by_category).

Definition skills_value (skills_by_category : pydict (list (pydict value))) : value :=
  VDict (map (fun kv => (fst kv, VList (map VDict (snd kv)))) skills_by_category).

(** [GET /api/skills] *)
Definition get_skills (be : Backend) : M Response :=
  try_except
    (do skills <- Skill_query_all be;
     do skills_by_category <- for_each group_skill skills [];
     ret (jsonify [ ("status", VStr "success");
                    ("data", VDict [ ("skills", skills_value skills_by_category) ]);
                    ("message", VStr "Skills retrieved successfully") ] 200))
    (fun e =>
       ret (jsonify (error_envelope "DATABASE_ERROR"
                       "Failed to retrieve skills") 500)).

(** [data.get(k, default)]: only dictionaries have the method. *)
Definition py_get (data : value) (k : string) (dflt : value) : M value :=
  match data with
  | VDict d => ret (default dflt (dict_get k d))
  | _ => raise AttributeError
  end.

(** [data[k]] *)
Definition py_getitem (data : value) (k : string) : M value :=
  match data with
  | VDict d => dict_getitem k d
  | _ => raise TypeError
  end.

(** [not x] and the short-circuit [x or y]. *)
Definition not_ (x : M value) : M bool :=
  do v <- x; ret (negb (truthy v)).

Definition or_ (x y : M bool) : M bool :=
  do b <- x; if b then ret true else y.

(** [ContactMessage(name=..., email=..., subject=..., message=..., ip_address=...)] *)
Definition new_ContactMessage (name email subject message ip : value) : ContactMessage :=
  {| cm_id := None;
     cm_name := name;
     cm_email := email;
     cm_subject := subject;
     cm_message := message;
     ip_address := ip;
     cm_created_at := None;
     read_status := None |}.

(** [POST /api/contact] *)
Definition submit_contact (request : Request) (be : Backend) : M Response :=
  try_except
    (let data := get_json request in
     do invalid <-
       or_ (not_ (ret data))
        (or_ (not_ (py_get data "name" VNone))
          (or_ (not_ (py_get data "email" VNone))
               (not_ (py_get data "message" VNone))));
     if invalid then
       ret (jsonify (error_envelope "VALIDATION_ERROR"
                       "Name, email, and message are required fields") 400)
     else
       do name <- py_getitem data "name";
       do email <- py_getitem data "email";
       do subject <- py_get data "subject" (VStr "");
       do message <- py_getitem data "message";
       let contact_message :=
         new_ContactMessage name email subject message
                            (opt_str (remote_addr request)) in
       exec session_add contact_message;
       exec session_commit be;
       ret (jsonify [ ("status", VStr "success");
                      ("message", VStr "Message sent successfully") ] 200))
    (fun e =>
       exec session_rollback;
       ret (jsonify (error_envelope "DATABASE_ERROR"
                       "Failed to send message") 500)).

End App.

(** ** Reading a representation back

    The repository has no parser for its own output; these are the inverse
    readings the specification's round-trip property speaks of: the
    sequence is rejoined on the delimiter, and the date text is read as
    [YYYY-MM-DD] (what [datetime.strptime(s, '%Y-%m-%d').date()] accepts). *)

Module Reparse.
Import Py Models.

Definition digit_value (c : ascii) : option Z :=
  let n := Z.of_nat (nat_of_ascii c) in
  if ((48 <=? n) && (n <=? 57))%Z then Some (n - 48)%Z else None.

Definition parse2 (a b : ascii) : option Z :=
  match digit_value a, digit_value b with
  | Some x, Some y => Some (10 * x + y)%Z
  | _, _ => None
  end.

Definition parse4 (a b c d : ascii) : option Z :=
  match parse2 a b, parse2 c d with
  | Some x, Some y => Some (100 * x + y)%Z
  | _, _ => None
  end.

Definition parse_date (s : string) : option date :=
  match s with
  | String y3 (String y2 (String y1 (String y0 (String sep1
      (String m1 (String m0 (String sep2
        (String d1 (String d0 EmptyString))))))))) =>
      if Ascii.eqb sep1 "-" && Ascii.eqb sep2 "-" then
        match parse4 y3 y2 y1 y0, parse2 m1 m0, parse2 d1 d0 with
        | Some y, Some m, Some d =>
            let r := Date y m d in
            if valid_date r then Some r else None
        | _, _, _ => None
        end
      else None
  | _ => None
  end.

Definition as_str (v : value) : option string :=
  match v with VStr s => Some s | _ => None end.

Fixpoint as_strs (l : list value) : option (list string) :=
  match l with
  | [] => Some []
  | v :: l' =>
      match as_str v, as_strs l' with
      | Some s, Some ss => Some (s :: ss)
      | _, _ => None
      end
  end.

(** The stored technology field behind a [tech_stack] sequence. *)
Definition reparse_tech_stack (v : value) : option string :=
  match v with
  | VList l => option_map (join ",") (as_strs l)
  | _ => None
  end.

(** The stored creation date behind a [date_created] text. *)
Definition reparse_date_created (v : value) : option date :=
  match v with
  | VStr s => parse_date s
  | _ => None
  end.

End Reparse.

(** ** Sample data: rows of [init_db.py] and requests of [test_api.py] *)

Module Samples.
Import Py Models Db App.

Definition fake_news : Project :=
  {| project_id := 1;
     title := "Fake News Detection Web App";
     description := "A machine learning-powered web application";
     tech_stack := "Flask,Python,Scikit-learn,MongoDB,HTML,CSS,JavaScript";
     date_created := Date 2025 8 15;
     github_url := Some "https://github.com/jaiyan-th/fake-news-detector";
     demo_url := None;
     image_url := Some "/static/images/fake-news-project.jpg";
     featured := Some true;
     project_created_at := Some (DateTime (Date 2025 11 2) 9 30 0) |}.

Definition test_project_2 : Project :=
  {| project_id := 2;
     title := "Test Project 2";
     description := "Second test project";
     tech_stack := "JavaScript,React";
     date_created := Date 2025 2 1;
     github_url := None;
     demo_url := None;
     image_url := None;
     featured := Some false;
     project_created_at := Some (DateTime (Date 2025 11 2) 9 30 1) |}.

Definition empty_tech_project : Project :=
  {| project_id := 3;
     title := "Empty Tech Stack Project";
     description := "Project with no tech stack";
     tech_stack := "";
     date_created := Date 2025 11 2;
     github_url := None;
     demo_url := None;
     image_url := None;
     featured := Some false;
     project_created_at := None |}.

Definition python_skill : Skill :=
  {| skill_id := 1;
     skill_name := "Python";
     category := "programming";
     proficiency_level := Some 4%Z;
     icon_class := Some "fab fa-python";
     skill_created_at := Some (DateTime (Date 2025 11 2) 9 30 0) |}.

Definition excel_skill : Skill :=
  {| skill_id := 2;
     skill_name := "Excel";
     category := "tools";
     proficiency_level := Some 4%Z;
     icon_class := Some "fas fa-file-excel";
     skill_created_at := Some (DateTime (Date 2025 11 2) 9 30 0) |}.

Definition javascript_skill : Skill :=
  {| skill_id := 3;
     skill_name := "JavaScript";
     category := "programming";
     proficiency_level := Some 3%Z;
     icon_class := Some "fab fa-js-square";
     skill_created_at := Some (DateTime (Date 2025 11 2) 9 30 0) |}.

Definition seeded : Session :=
  {| database :=
       {| projects := [fake_news; test_project_2; empty_tech_project];
          skills := [python_skill; excel_skill; javascript_skill];
          contact_messages := [] |};
     session_new := [] |}.

Definition healthy : Backend :=
  {| utcnow := DateTime (Date 2025 11 3) 12 0 0;
     query_fails := false;
     commit_fails := false |}.

Definition broken : Backend :=
  {| utcnow := DateTime (Date 2025 11 3) 12 0 0;
     query_fails := true;
     commit_fails := true |}.

Definition post (fields : pydict value) : Request :=
  {| get_json := VDict fields; remote_addr := Some "127.0.0.1" |}.

Definition john_doe : Request :=
  post [ ("name", VStr "John Doe");
         ("email", VStr "john@example.com");
         ("message", VStr "Test message") ].

Definition empty_name : Request :=
  post [ ("name", VStr "");
         ("email", VStr "a@b.com");
         ("message", VStr "hi") ].

Definition blank_fields : Request :=
  post [ ("name", VStr " "); ("email", VStr " "); ("message", VStr " ") ].

Definition commit_broken : Backend :=
  {| utcnow := DateTime (Date 2025 11 3) 12 0 0;
     query_fails := false;
     commit_fails := true |}.

Definition array_body : Request :=
  {| get_json := VList [VInt 1]; remote_addr := Some "127.0.0.1" |}.

Definition forged_fields : Request :=
  post [ ("name", VStr "John Doe");
         ("email", VStr "john@example.com");
         ("message", VStr "Test message");
         ("read_status", VBool true);
         ("ip_address", VStr "10.0.0.1");
         ("id", VInt 7) ].

End Samples.

(** ** init_db.py *)

Module InitDb.
Import Py Models Db.

(** The script's unit of work: the committed database, the database as the
    open transaction sees it, and the objects added but not yet written.
    An object without its primary key is a row awaiting the key. *)
Record Work : Type := {
  committed : Database;
  view : Database;
  new_projects : list (Z -> Project);
  new_skills : list (Z -> Skill)
}.

Definition W (A : Type) : Type := Work -> result A * Work.

Definition wret {A} (a : A) : W A := fun w => (Ok a, w).

Definition wraise {A} (e : exn) : W A := fun w => (Raise e, w).

Definition wbind {A B} (m : W A) (k : A -> W B) : W B :=
  fun w =>
    match m w with
    | (Ok a, w') => k a w'
    | (Raise e, w') => (Raise e, w')
    end.

(** [try: body  except Exception as e: handler] *)
Definition wtry {A} (body : W A) (handler : exn -> W A) : W A :=
  fun w =>
    match body w with
    | (Ok a, w') => (Ok a, w')
    | (Raise e, w') => handler e w'
    end.

Notation "m >> k" := (wbind m (fun _ => k))
  (at level 60, right associativity).

(** [for x in l: body(x)] *)
Fixpoint wfor {A} (body : A -> W unit) (l : list A) : W unit :=
  match l with
  | [] => wret tt
  | x :: l' => body x >> wfor body l'
  end.

(** [Project(title=..., ..., featured=...)] and [Skill(name=..., ...)]:
    [created_at] is left unset. *)
Definition Project_new (title description tech_stack : string) (date_created : date)
    (github_url demo_url image_url : option string) (featured : option bool)
    : Z -> Project :=
  fun id =>
    {| project_id := id;
       title := title;
       description := description;
       tech_stack := tech_stack;
       date_created := date_created;
       github_url := github_url;
       demo_url := demo_url;
       image_url := image_url;
       featured := featured;
       project_created_at := None |}.

Definition Skill_new (name category : string) (proficiency_level : option Z)
    (icon_class : option string) : Z -> Skill :=
  fun id =>
    {| skill_id := id;
       skill_name := name;
       category := category;
       proficiency_level := proficiency_level;
       icon_class := icon_class;
       skill_created_at := None |}.

(** The key SQLite gives to a new row: one more than the largest in use. *)
Definition next_key (ids : list Z) : Z := (1 + fold_right Z.max 0 ids)%Z.

(** Writing one object: the key is assigned and the column defaults
    ([featured=False], [proficiency_level=1], [created_at=utcnow]) fill
    what the object left unset. *)
Definition insert_project (be : Backend) (rows : list Project)
    (obj : Z -> Project) : list Project :=
  let p := obj (next_key (map project_id rows)) in
  rows ++
  [ {| project_id := project_id p;
       title := title p;
       description := description p;
       tech_stack := tech_stack p;
       date_created := date_created p;
       github_url := github_url p;
       demo_url := demo_url p;
       image_url := image_url p;
       featured := Some (default false (featured p));
       project_created_at := Some (default (utcnow be) (project_created_at p)) |} ].

Definition insert_skill (be : Backend) (rows : list Skill)
    (obj : Z -> Skill) : list Skill :=
  let k := obj (next_key (map skill_id rows)) in
  rows ++
  [ {| skill_id := skill_id k;
       skill_name := skill_name k;
       category := category k;
       proficiency_level := Some (default 1%Z (proficiency_level k));
       icon_class := icon_class k;
       skill_created_at := Some (default (utcnow be) (skill_created_at k)) |} ].

Definition empty_database : Database :=
  {| projects := []; skills := []; contact_messages := [] |}.

Definition flushed (be : Backend) (w : Work) : Database :=
  {| projects := fold_left (insert_project be) (new_projects w) (projects (view w));
     skills := fold_left (insert_skill be) (new_skills w) (skills (view w));
     contact_messages := contact_messages (view w) |}.

(** [db.create_all()]: the tables exist already or are created empty; no
    row is touched. *)
Definition create_all : W unit := wret tt.

(** [db.drop_all()]: the tables go, and their rows with them, at once. *)
Definition drop_all : W unit :=
  fun w => (Ok tt, {| committed := empty_database;
                      view := empty_database;
                      new_projects := new_projects w;
                      new_skills := new_skills w |}).

(** [db.session.query(Project).delete()] and its two siblings: the rows
    are deleted inside the open transaction. *)
Definition delete_projects (be : Backend) : W unit :=
  fun w =>
    if query_fails be then (Raise SQLAlchemyError, w)
    else (Ok tt, {| committed := committed w;
                    view := {| projects := [];
                               skills := skills (view w);
                               contact_messages := contact_messages (view w) |};
                    new_projects := new_projects w;
                    new_skills := new_skills w |}).

Definition delete_skills (be : Backend) : W unit :=
  fun w =>
    if query_fails be then (Raise SQLAlchemyError, w)
    else (Ok tt, {| committed := committed w;
                    view := {| projects := projects (view w);
                               skills := [];
                               contact_messages := contact_messages (view w) |};
                    new_projects := new_projects w;
                    new_skills := new_skills w |}).

Definition delete_contact_messages (be : Backend) : W unit :=
  fun w =>
    if query_fails be then (Raise SQLAlchemyError, w)
    else (Ok tt, {| committed := committed w;
                    view := {| projects := projects (view w);
                               skills := skills (view w);
                               contact_messages := [] |};
                    new_projects := new_projects w;
                    new_skills := new_skills w |}).

(** [db.session.add(obj)] *)
Definition add_project (obj : Z -> Project) : W unit :=
  fun w => (Ok tt, {| committed := committed w;
                      view := view w;
                      new_projects := new_projects w ++ [obj];
                      new_skills := new_skills w |}).

Definition add_skill (obj : Z -> Skill) : W unit :=
  fun w => (Ok tt, {| committed := committed w;
                      view := view w;
                      new_projects := new_projects w;
                      new_skills := new_skills w ++ [obj] |}).

(** [db.session.commit()]: the deletions and the pending objects are all
    written, or the engine raises and none is. *)
Definition commit (be : Backend) : W unit :=
  fun w =>
    if commit_fails be then (Raise SQLAlchemyError, w)
    else (Ok tt, {| committed := flushed be w;
                    view := flushed be w;
                    new_projects := [];
                    new_skills := [] |}).

(** [db.session.rollback()]: the transaction is abandoned. *)
Definition rollback : W unit :=
  fun w => (Ok tt, {| committed := committed w;
                      view := committed w;
                      new_projects := [];
                      new_skills := [] |}).

(** The sample rows of [init_database]. *)
Definition sample_projects : list (Z -> Project) :=
  [
  Project_new
    "Fake News Detection Web App"
    "A machine learning-powered web application that analyzes news articles and determines their authenticity using advanced NLP techniques and scikit-learn algorithms. Features real-time analysis, confidence scoring, and detailed explanations of detection criteria."
    "Flask,Python,Scikit-learn,MongoDB,HTML,CSS,JavaScript"
    (Date 2025 8 15)
    (Some "https://github.com/jaiyan-th/fake-news-detector")
    None
    (Some "/static/images/fake-news-project.jpg")
    (Some true);
  Project_new
    "SecureDesk - Notes & Password Manager"
    "A comprehensive desktop application for secure note-taking and password management. Features AES encryption, secure password generation, organized categorization, and cross-platform compatibility with a clean, intuitive interface."
    "Flask,HTML,CSS,JavaScript,SQLite,Encryption"
    (Date 2025 10 20)
    (Some "https://github.com/jaiyan-th/securedesk")
    None
    (Some "/static/images/securedesk-project.jpg")
    (Some true) ].

Definition programming_skills : list (Z -> Skill) :=
  [
    Skill_new "Python" "programming" (Some 4%Z) (Some "fab fa-python");
    Skill_new "HTML/CSS" "programming" (Some 4%Z) (Some "fab fa-html5");
    Skill_new "JavaScript" "programming" (Some 3%Z) (Some "fab fa-js-square");
    Skill_new "Java (Basics)" "programming" (Some 2%Z) (Some "fab fa-java") ].

Definition tools : list (Z -> Skill) :=
  [
    Skill_new "Excel" "tools" (Some 4%Z) (Some "fas fa-file-excel");
    Skill_new "Word" "tools" (Some 4%Z) (Some "fas fa-file-word");
    Skill_new "Canva" "tools" (Some 3%Z) (Some "fas fa-palette");
    Skill_new "AI Studio" "tools" (Some 3%Z) (Some "fas fa-robot") ].

Definition learning_skills : list (Z -> Skill) :=
  [
    Skill_new "SQL" "learning" (Some 2%Z) (Some "fas fa-database");
    Skill_new "AI Tools" "learning" (Some 2%Z) (Some "fas fa-brain");
    Skill_new "Full-Stack Development" "learning" (Some 2%Z) (Some "fas fa-code") ].

(** [init_database()], the printing apart. *)
Definition init_database (be : Backend) : W unit :=
  create_all >>
  delete_projects be >>
  delete_skills be >>
  delete_contact_messages be >>
  wfor add_project sample_projects >>
  wfor add_skill (programming_skills ++ tools ++ learning_skills) >>
  wtry (commit be)
       (fun e => rollback >> wraise e).

(** [reset_database()] *)
Definition reset_database (be : Backend) : W unit :=
  drop_all >> init_database be.

(** A session that has nothing pending. *)
Definition fresh (w : Work) : Prop :=
  new_projects w = [] /\ new_skills w = [].

(** The work state of a session just opened on [db]. *)
Definition opened (db : Database) : Work :=
  {| committed := db; view := db; new_projects := []; new_skills := [] |}.

(** The database [init_database] writes at time [utcnow be]. *)
Definition seeded_database (be : Backend) : Database :=
  flushed be {| committed := empty_database;
                view := empty_database;
                new_projects := sample_projects;
                new_skills := programming_skills ++ tools ++ learning_skills |}.

(** The API's session on a database. *)
Definition serving (db : Database) : Session :=
  {| database := db; session_new := [] |}.

End InitDb.

Import Py Models Db App Reparse.

(** ** Vocabulary of the statements *)

(** The field lists the interface description gives for the two
    representations, and the ones the endpoints emit. *)
Definition ProjectRepr_fields : list string :=
  [ "id"; "title"; "description"; "tech_stack"; "date_created";
    "github_url"; "demo_url"; "image_url"; "featured"; "created_at" ].

Definition SkillRepr_fields : list string :=
  [ "id"; "name"; "category"; "proficiency_level"; "icon_class"; "created_at" ].

Definition project_entry_fields : list string :=
  [ "id"; "title"; "description"; "tech_stack"; "date_created";
    "github_url"; "demo_url"; "featured" ].

Definition skill_entry_fields : list string :=
  [ "id"; "name"; "proficiency_level"; "icon_class" ].

(** [v[k]] read off a JSON object. *)
Definition value_get (k : string) (v : value) : option value :=
  match v with VDict d => dict_get k d | _ => None end.

Definition as_list (v : value) : option (list value) :=
  match v with VList l => Some l | _ => None end.

Definition entry_fields (v : value) : list string :=
  match v with VDict d => dict_keys d | _ => [] end.

(** A representation has exactly the fields [fields], each once. *)
Definition has_exactly (fields : list string) (v : value) : Prop :=
  entry_fields v ≡ₚ fields.

(** [v[k1][k2]...] *)
Fixpoint value_path (ks : list string) (v : value) : option value :=
  match ks with
  | [] => Some v
  | k :: ks' =>
      match value_get k v with
      | Some v' => value_path ks' v'
      | None => None
      end
  end.

(** [response.json['data']['projects']] of a successful answer. *)
Definition response_projects (r : result Response) : option (list value) :=
  match r with
  | Ok resp =>
      match value_path ["data"; "projects"] (body resp) with
      | Some (VList l) => Some l
      | _ => None
      end
  | Raise _ => None
  end.

Fixpoint as_groups (d : pydict value) : option (pydict (list value)) :=
  match d with
  | [] => Some []
  | (c, v) :: d' =>
      match as_list v, as_groups d' with
      | Some l, Some g => Some ((c, l) :: g)
      | _, _ => None
      end
  end.

(** [response.json['data']['skills']], group by group. *)
Definition response_skills (r : result Response) : option (pydict (list value)) :=
  match r with
  | Ok resp =>
      match value_path ["data"; "skills"] (body resp) with
      | Some (VDict d) => as_groups d
      | _ => None
      end
  | Raise _ => None
  end.

(** [response.json['status']] and [response.json['error']['code']]. *)
Definition response_status (resp : Response) : option value :=
  value_path ["status"] (body resp).

Definition response_error_code (resp : Response) : option value :=
  value_path ["error"; "code"] (body resp).

(** [entry['featured'] == True] *)
Definition entry_featured (v : value) : bool :=
  match value_get "featured" v with Some (VBool true) => true | _ => false end.

(** Distinct elements in the order of their first occurrence. *)
Fixpoint first_seen (l : list string) : list string :=
  match l with
  | [] => []
  | c :: l' => c :: List.filter (fun c' => negb (String.eqb c' c)) (first_seen l')
  end.

(** The rows of one category, in table order. *)
Definition skills_in (c : string) (rows : list Skill) : list Skill :=
  List.filter (fun x => String.eqb (category x) c) rows.

(** The grouping [get_skills] is expected to build from [rows]. *)
Definition grouped (rows : list Skill) : pydict (list (pydict value)) :=
  map (fun c => (c, map skill_entry (skills_in c rows)))
      (first_seen (map category rows)).

(** A required field that the body lacks, or carries with a false value
    (the empty string, [null], [0], [false], an empty array or object). *)
Definition absent_or_empty (k : string) (d : pydict value) : Prop :=
  match dict_get k d with
  | None => True
  | Some v => truthy v = false
  end.

(** The row written for a submission. *)
Definition stored_message (be : Backend) (rows : list ContactMessage)
    (name email subject message ip : value) : ContactMessage :=
  {| cm_id := Some (next_id rows);
     cm_name := name;
     cm_email := email;
     cm_subject := subject;
     cm_message := message;
     ip_address := ip;
     cm_created_at := Some (utcnow be);
     read_status := Some false |}.

Definition with_contact_messages (db : Database) (rows : list ContactMessage) : Database :=
  {| projects := projects db; skills := skills db; contact_messages := rows |}.

Definition success_no_data : Response :=
  jsonify [ ("status", VStr "success");
            ("message", VStr "Message sent successfully") ] 200.

(** The dictionary with keys [ks], in that order, and values [f k]. *)
Definition tabulate {V} (f : string -> V) (ks : list string) : pydict V :=
  map (fun c => (c, f c)) ks.

(** The three answers of [POST /api/contact] other than success. *)
Definition validation_error : Response :=
  jsonify (error_envelope "VALIDATION_ERROR"
             "Name, email, and message are required fields") 400.

Definition database_error : Response :=
  jsonify (error_envelope "DATABASE_ERROR" "Failed to send message") 500.

(** [bool(d.get(k))] *)
Definition field_ok (k : string) (d : pydict value) : bool :=
  truthy (default VNone (dict_get k d)).

(** A body that is false as a whole ([null], [false], [0], an empty string,
    array or object), or an object in which one of the required fields is
    absent or empty. *)
Definition lacks_required_field (data : value) : Prop :=
  match data with
  | VDict d =>
      absent_or_empty "name" d \/ absent_or_empty "email" d \/
      absent_or_empty "message" d
  | _ => truthy data = false
  end.

(** Reading one field of a representation back with [parse]. *)
Definition reparse_field {A} (k : string) (parse : value -> option A)
    (d : pydict value) : option A :=
  match dict_get k d with
  | Some v => parse v
  | None => None
  end.

(** ** Vocabulary of the further properties *)

Definition is_object (data : value) : bool :=
  match data with VDict _ => true | _ => false end.

(** The session [db.session.rollback()] leaves behind. *)
Definition rolled_back (s : Session) : Session :=
  {| database := database s; session_new := [] |}.

(** The three ways [submit_contact] can end. *)
Inductive outcome : Type := Rejected | Failed | Stored.

(** Which way it ends, read off the body and the store's verdict. *)
Definition contact_outcome (data : value) (be : Backend) : outcome :=
  if negb (truthy data) then Rejected
  else match data with
       | VDict d =>
           if field_ok "name" d && field_ok "email" d && field_ok "message" d
           then (if commit_fails be then Failed else Stored)
           else Rejected
       | _ => Failed
       end.

Definition body_fields (data : value) : pydict value :=
  match data with VDict d => d | _ => [] end.

(** The object [submit_contact] builds from an accepted request. *)
Definition submitted (request : Request) : ContactMessage :=
  let d := body_fields (get_json request) in
  new_ContactMessage (default VNone (dict_get "name" d))
                     (default VNone (dict_get "email" d))
                     (default (VStr "") (dict_get "subject" d))
                     (default VNone (dict_get "message" d))
                     (opt_str (remote_addr request)).

(** The keys of the body that [submit_contact] reads. *)
Definition contact_keys : list string := [ "name"; "email"; "subject"; "message" ].

(** [c in w] and [w.count(c)] for a single character. *)
Fixpoint contains_char (c : ascii) (w : string) : bool :=
  match w with
  | EmptyString => false
  | String a w' => Ascii.eqb a c || contains_char c w'
  end.

Fixpoint count_char (c : ascii) (w : string) : nat :=
  match w with
  | EmptyString => 0
  | String a w' => (if Ascii.eqb a c then 1 else 0) + count_char c w'
  end.

(** The values the [datetime] constructor accepts (to the second). *)
Definition valid_datetime (t : datetime) : bool :=
  (valid_date (dt_date t) &&
   (0 <=? hour t) && (hour t <=? 23) &&
   (0 <=? minute t) && (minute t <=? 59) &&
   (0 <=? second t) && (second t <=? 59))%Z.

(** Reading [YYYY-MM-DD HH:MM:SS] back
    ([datetime.strptime(s, '%Y-%m-%d %H:%M:%S')]). *)
Definition parse_datetime (s : string) : option datetime :=
  match s with
  | String y3 (String y2 (String y1 (String y0 (String sep1
      (String m1 (String m0 (String sep2
        (String d1 (String d0 (String sep3
          (String h1 (String h0 (String sep4
            (String n1 (String n0 (String sep5
              (String s1 (String s0 EmptyString)))))))))))))))))) =>
      if Ascii.eqb sep1 "-" && Ascii.eqb sep2 "-" && Ascii.eqb sep3 " "
         && Ascii.eqb sep4 ":" && Ascii.eqb sep5 ":" then
        match parse4 y3 y2 y1 y0, parse2 m1 m0, parse2 d1 d0,
              parse2 h1 h0, parse2 n1 n0, parse2 s1 s0 with
        | Some y, Some m, Some d, Some h, Some n, Some sec =>
            let r := DateTime (Date y m d) h n sec in
            if valid_datetime r then Some r else None
        | _, _, _, _, _, _ => None
        end
      else None
  | _ => None
  end.

(** The stored timestamp behind a [created_at] member. *)
Definition reparse_created_at (v : value) : option (option datetime) :=
  match v with
  | VNone => Some None
  | VStr s => option_map Some (parse_datetime s)
  | _ => None
  end.

(** Calendar order of two dates. *)
Definition date_compare (a b : date) : comparison :=
  match (year a ?= year b)%Z with
  | Eq => match (month a ?= month b)%Z with
          | Eq => (day a ?= day b)%Z
          | c => c
          end
  | c => c
  end.

(** ** Loops and dictionaries *)

Lemma for_each_snoc {A B} (body : B -> A -> M B) (l : list A) (x : A)
    (acc : B) (s : Session) :
  for_each body (l ++ [x]) acc s =
    match for_each body l acc s with
    | (Ok acc', s') => body acc' x s'
    | (Raise e, s') => (Raise e, s')
    end.
Proof.
  revert acc s. induction l as [|y l IH]; intros acc s; simpl.
  - unfold bind. destruct (body acc x s) as [[a|e] s']; reflexivity.
  - unfold bind. destruct (body acc y s) as [[a|e] s']; [apply IH | reflexivity].
Qed.

Lemma first_seen_elem (c : string) (l : list string) : c ∈ first_seen l <-> c ∈ l.
Proof.
  induction l as [|a l IH]; simpl; [reflexivity |].
  rewrite !elem_of_cons, list_elem_of_In, filter_In, <- list_elem_of_In, IH.
  destruct (String.eqb_spec c a) as [-> | Hne]; simpl; intuition congruence.
Qed.

Lemma first_seen_NoDup (l : list string) : NoDup (first_seen l).
Proof.
  induction l as [|a l IH]; simpl; [constructor |].
  constructor.
  - rewrite list_elem_of_In, filter_In. rewrite String.eqb_refl. simpl. intros [_ H]. discriminate.
  - apply NoDup_ListNoDup. apply List.NoDup_filter. by apply NoDup_ListNoDup.
Qed.

Lemma filter_ne_snoc (a c : string) (l : list string) :
  List.filter (fun c' => negb (String.eqb c' a)) (l ++ [c]) =
  List.filter (fun c' => negb (String.eqb c' a)) l ++ (if String.eqb c a then [] else [c]).
Proof. rewrite List.filter_app. simpl. by destruct (String.eqb c a). Qed.

Lemma first_seen_snoc (l : list string) (c : string) :
  first_seen (l ++ [c]) = if bool_decide (c ∈ l) then first_seen l else first_seen l ++ [c].
Proof.
  induction l as [|a l IH]; simpl; [reflexivity |].
  rewrite IH. clear IH.
  destruct (decide (c ∈ l)) as [Hin | Hin].
  - rewrite (bool_decide_eq_true_2 (c ∈ l) Hin).
    rewrite (bool_decide_eq_true_2 (c ∈ a :: l)) by (apply elem_of_cons; by right).
    reflexivity.
  - rewrite (bool_decide_eq_false_2 (c ∈ l) Hin).
    rewrite filter_ne_snoc.
    destruct (String.eqb_spec c a) as [-> | Hne].
    + rewrite (bool_decide_eq_true_2 (a ∈ a :: l)) by (apply elem_of_cons; by left).
      by rewrite app_nil_r.
    + rewrite (bool_decide_eq_false_2 (c ∈ a :: l)) by (rewrite elem_of_cons; intuition).
      reflexivity.
Qed.

Section dict_of_keys.
Context {V : Type} (f : string -> V).

Lemma dict_contains_tabulate (c : string) (ks : list string) :
  dict_contains c (tabulate f ks) = bool_decide (c ∈ ks).
Proof.
  induction ks as [|k ks IH]; simpl; [reflexivity |].
  destruct (String.eqb_spec c k) as [-> | Hne].
  - symmetry. apply bool_decide_eq_true_2, elem_of_cons. by left.
  - rewrite IH. apply bool_decide_ext. rewrite elem_of_cons. intuition.
Qed.

Lemma dict_get_tabulate (c : string) (ks : list string) :
  dict_get c (tabulate f ks) = if bool_decide (c ∈ ks) then Some (f c) else None.
Proof.
  induction ks as [|k ks IH]; simpl; [reflexivity |].
  destruct (String.eqb_spec c k) as [-> | Hne].
  - rewrite bool_decide_eq_true_2; [reflexivity | apply elem_of_cons; by left].
  - rewrite IH. rewrite (bool_decide_ext (c ∈ k :: ks) (c ∈ ks)); [reflexivity |].
    rewrite elem_of_cons. intuition.
Qed.

Lemma dict_setitem_fresh (c : string) (v : V) (d : pydict V) :
  c ∉ dict_keys d -> dict_setitem c v d = d ++ [(c, v)].
Proof.
  induction d as [|[k w] d IH]; simpl; intros Hc; [reflexivity |].
  apply not_elem_of_cons in Hc as [Hne Hc].
  destruct (String.eqb_spec c k); [congruence |]. by rewrite IH.
Qed.

Lemma dict_setitem_tabulate (c : string) (v : V) (ks : list string) :
  NoDup ks -> c ∈ ks ->
  dict_setitem c v (tabulate f ks) =
    map (fun c' => (c', if String.eqb c' c then v else f c')) ks.
Proof.
  induction 1 as [|k ks Hk Hnd IH]; simpl; intros Hc; [by apply elem_of_nil in Hc |].
  destruct (String.eqb_spec c k) as [-> | Hne].
  - rewrite String.eqb_refl. f_equal.
    apply map_ext_in. intros c' Hc'. apply list_elem_of_In in Hc'.
    destruct (String.eqb_spec c' k) as [-> | ]; [contradiction | reflexivity].
  - destruct (String.eqb_spec k c); [congruence |].
    f_equal. apply IH. apply elem_of_cons in Hc as [? | ?]; [congruence | assumption].
Qed.

Lemma dict_keys_tabulate (ks : list string) : dict_keys (tabulate f ks) = ks.
Proof. unfold dict_keys, tabulate. rewrite map_map. simpl. apply map_id. Qed.

End dict_of_keys.

Lemma dict_get_snoc_fresh {V} (c : string) (v : V) (d : pydict V) :
  c ∉ dict_keys d -> dict_get c (d ++ [(c, v)]) = Some v.
Proof.
  induction d as [|[k w] d IH]; simpl; intros Hc.
  - by rewrite String.eqb_refl.
  - apply not_elem_of_cons in Hc as [Hne Hc].
    destruct (String.eqb_spec c k); [congruence | by apply IH].
Qed.

Lemma dict_setitem_snoc_fresh {V} (c : string) (v w : V) (d : pydict V) :
  c ∉ dict_keys d -> dict_setitem c v (d ++ [(c, w)]) = d ++ [(c, v)].
Proof.
  induction d as [|[k u] d IH]; simpl; intros Hc.
  - by rewrite String.eqb_refl.
  - apply not_elem_of_cons in Hc as [Hne Hc].
    destruct (String.eqb_spec c k); [congruence | by rewrite IH].
Qed.

(** ** The grouping loop of [get_skills] *)

Lemma skills_in_snoc (c : string) (rows : list Skill) (x : Skill) :
  skills_in c (rows ++ [x]) =
    skills_in c rows ++ (if String.eqb (category x) c then [x] else []).
Proof. unfold skills_in. rewrite List.filter_app. reflexivity. Qed.

Lemma skills_in_none (c : string) (rows : list Skill) :
  c ∉ map category rows -> skills_in c rows = [].
Proof.
  induction rows as [|y rows IH]; simpl; intros Hc; [reflexivity |].
  apply not_elem_of_cons in Hc as [Hne Hc].
  destruct (String.eqb_spec (category y) c); [congruence | by apply IH].
Qed.

Lemma grouped_tabulate (rows : list Skill) :
  grouped rows =
    tabulate (fun c => map skill_entry (skills_in c rows))
             (first_seen (map category rows)).
Proof. reflexivity. Qed.

Lemma group_skill_grouped (rows : list Skill) (x : Skill) (s : Session) :
  group_skill (grouped rows) x s = (Ok (grouped (rows ++ [x])), s).
Proof.
  unfold group_skill. rewrite !grouped_tabulate.
  set (f := fun c => map skill_entry (skills_in c rows)).
  set (ks := first_seen (map category rows)).
  rewrite dict_contains_tabulate, map_app. simpl map.
  rewrite first_seen_snoc. fold ks.
  rewrite (bool_decide_ext (category x ∈ ks) (category x ∈ map category rows))
    by apply first_seen_elem.
  destruct (decide (category x ∈ map category rows)) as [Hin | Hin].
  - rewrite (bool_decide_eq_true_2 _ Hin). simpl negb. cbv iota.
    unfold dict_getitem, bind. rewrite dict_get_tabulate.
    rewrite (bool_decide_eq_true_2 (category x ∈ ks)) by (by apply first_seen_elem).
    unfold ret. do 2 f_equal.
    rewrite dict_setitem_tabulate;
      [| apply first_seen_NoDup | by apply first_seen_elem].
    unfold tabulate. apply map_ext. intros c'. f_equal.
    rewrite skills_in_snoc, map_app. unfold f.
    rewrite (String.eqb_sym c' (category x)).
    destruct (String.eqb_spec (category x) c') as [<- | Hne]; simpl.
    + reflexivity.
    + by rewrite app_nil_r.
  - rewrite (bool_decide_eq_false_2 _ Hin). simpl negb. cbv iota.
    assert (Hfresh : category x ∉ dict_keys (tabulate f ks)).
    { rewrite dict_keys_tabulate. unfold ks. by rewrite first_seen_elem. }
    rewrite (dict_setitem_fresh _ _ _ Hfresh).
    unfold dict_getitem, bind. rewrite (dict_get_snoc_fresh _ _ _ Hfresh).
    unfold ret. do 2 f_equal.
    rewrite (dict_setitem_snoc_fresh _ _ _ _ Hfresh).
    unfold tabulate. rewrite map_app. simpl map. f_equal.
    + apply map_ext_in. intros c' Hc'. f_equal. unfold f.
      rewrite skills_in_snoc, map_app.
      destruct (String.eqb_spec (category x) c') as [<- | Hne]; simpl.
      * apply list_elem_of_In in Hc'. unfold ks in Hc'.
        apply (proj1 (first_seen_elem _ _)) in Hc'. contradiction.
      * by rewrite app_nil_r.
    + rewrite skills_in_snoc, String.eqb_refl, map_app.
      by rewrite (skills_in_none _ _ Hin).
Qed.

Lemma for_each_group_skill (rows : list Skill) (s : Session) :
  for_each group_skill rows [] s = (Ok (grouped rows), s).
Proof.
  induction rows as [|x rows IH] using rev_ind; [reflexivity |].
  rewrite for_each_snoc, IH. apply group_skill_grouped.
Qed.

Lemma as_groups_skills (d : pydict (list (pydict value))) :
  as_groups (map (fun kv => (fst kv, VList (map VDict (snd kv)))) d) =
    Some (map (fun kv => (fst kv, map VDict (snd kv))) d).
Proof.
  induction d as [|[c g] d IH]; simpl; [reflexivity |]. by rewrite IH.
Qed.

Lemma get_skills_ok be s :
  query_fails be = false ->
  get_skills be s =
    (Ok (jsonify [ ("status", VStr "success");
                   ("data", VDict [ ("skills", skills_value (grouped (skills (database s)))) ]);
                   ("message", VStr "Skills retrieved successfully") ] 200), s).
Proof.
  intros Hq. unfold get_skills, try_except, bind, Skill_query_all.
  rewrite Hq. by rewrite for_each_group_skill.
Qed.

Lemma response_skills_ok be s :
  query_fails be = false ->
  response_skills (fst (get_skills be s)) =
    Some (map (fun kv => (fst kv, map VDict (snd kv))) (grouped (skills (database s)))).
Proof.
  intros Hq. rewrite (get_skills_ok be s Hq). simpl. apply as_groups_skills.
Qed.

(** ** Groups as a partition of the table *)

Lemma concat_map_nil {A B} (ks : list A) :
  List.concat (map (fun _ => @nil B) ks) = [].
Proof. induction ks; simpl; congruence. Qed.

Lemma concat_map_app_perm {A B} (F G : A -> list B) (ks : list A) :
  List.concat (map (fun c => F c ++ G c) ks) ≡ₚ List.concat (map F ks) ++ List.concat (map G ks).
Proof.
  induction ks as [|k ks IH]; simpl; [reflexivity |].
  rewrite IH, <- !app_assoc. apply Permutation_app_head.
  rewrite !app_assoc. apply Permutation_app_tail, Permutation_app_comm.
Qed.

Lemma concat_map_other {B} (k0 : string) (x : B) (ks : list string) :
  k0 ∉ ks ->
  List.concat (map (fun c => if String.eqb k0 c then [x] else []) ks) = [].
Proof.
  induction ks as [|k ks IH]; simpl; intros Hk; [reflexivity |].
  apply not_elem_of_cons in Hk as [Hne Hk].
  destruct (String.eqb_spec k0 k); [congruence | by apply IH].
Qed.

Lemma concat_map_single {B} (k0 : string) (x : B) (ks : list string) :
  NoDup ks -> k0 ∈ ks ->
  List.concat (map (fun c => if String.eqb k0 c then [x] else []) ks) = [x].
Proof.
  induction 1 as [|k ks Hk Hnd IH]; simpl; intros Hin; [by apply elem_of_nil in Hin |].
  destruct (String.eqb_spec k0 k) as [-> | Hne].
  - by rewrite concat_map_other.
  - apply elem_of_cons in Hin as [? | Hin]; [congruence | by apply IH].
Qed.

Lemma skills_in_cover (rows : list Skill) (ks : list string) :
  NoDup ks -> (forall x, x ∈ rows -> category x ∈ ks) ->
  List.concat (map (fun c => skills_in c rows) ks) ≡ₚ rows.
Proof.
  intros Hnd. induction rows as [|x rows IH]; intros Hks.
  - simpl. by rewrite concat_map_nil.
  - assert (E : List.concat (map (fun c => skills_in c (x :: rows)) ks) =
                List.concat (map (fun c => (if String.eqb (category x) c then [x] else [])
                                           ++ skills_in c rows) ks)).
    { f_equal. apply map_ext. intros c. simpl.
      by destruct (String.eqb (category x) c). }
    rewrite E. clear E.
    rewrite concat_map_app_perm.
    rewrite concat_map_single; [| assumption | apply Hks, elem_of_cons; by left].
    simpl. constructor. apply IH. intros y Hy. apply Hks, elem_of_cons. by right.
Qed.

Lemma skills_in_elem (c : string) (rows : list Skill) (x : Skill) :
  x ∈ skills_in c rows <-> x ∈ rows /\ category x = c.
Proof.
  unfold skills_in. rewrite list_elem_of_In, filter_In, <- list_elem_of_In.
  by rewrite String.eqb_eq.
Qed.

Lemma dict_get_grouped (c : string) (rows : list Skill) :
  dict_get c (grouped rows) =
    if bool_decide (c ∈ map category rows)
    then Some (map skill_entry (skills_in c rows)) else None.
Proof.
  rewrite grouped_tabulate, dict_get_tabulate.
  by rewrite (bool_decide_ext _ _ (first_seen_elem c (map category rows))).
Qed.

(** ** Filtering entries *)

Lemma filter_sublist {A} (f : A -> bool) (l : list A) : sublist (List.filter f l) l.
Proof.
  induction l as [|a l IH]; simpl; [constructor |].
  destruct (f a); by constructor.
Qed.

Lemma filter_map_commute {A B} (g : A -> B) (p : B -> bool) (l : list A) :
  List.filter p (map g l) = map g (List.filter (fun a => p (g a)) l).
Proof.
  induction l as [|a l IH]; simpl; [reflexivity |].
  rewrite IH. by destruct (p (g a)).
Qed.

Lemma entry_featured_project_entry (p : Project) :
  entry_featured (VDict (project_entry p)) = is_featured p.
Proof.
  unfold is_featured, entry_featured, project_entry. simpl.
  by destruct (featured p) as [[|]|].
Qed.

(** ** Splitting, joining and dates *)

Lemma split_not_nil (sep : ascii) (s : string) : split sep s <> [].
Proof.
  destruct s as [|c s]; simpl; [discriminate |].
  destruct (Ascii.eqb c sep); [discriminate |].
  destruct (split sep s); discriminate.
Qed.

Lemma join_cons_char (sep c : ascii) (w : string) (ws : list string) :
  join sep (String c w :: ws) = String c (join sep (w :: ws)).
Proof. destruct ws; reflexivity. Qed.

Lemma join_split (sep : ascii) (s : string) : join sep (split sep s) = s.
Proof.
  induction s as [|c s IH]; simpl; [reflexivity |].
  destruct (Ascii.eqb_spec c sep) as [-> | Hne].
  - destruct (split sep s) as [|w ws] eqn:E; [by apply split_not_nil in E |].
    change (join sep (EmptyString :: w :: ws)) with (String sep (join sep (w :: ws))).
    by rewrite IH.
  - destruct (split sep s) as [|w ws] eqn:E; [by apply split_not_nil in E |].
    by rewrite join_cons_char, IH.
Qed.

Lemma as_strs_VStr (l : list string) : as_strs (map VStr l) = Some l.
Proof. induction l as [|w l IH]; simpl; [reflexivity |]. by rewrite IH. Qed.

Lemma reparse_tech_stack_value (s : string) :
  reparse_tech_stack (tech_stack_value s) = Some s.
Proof.
  unfold tech_stack_value, str_truthy.
  destruct (String.eqb_spec s "") as [-> | Hne]; simpl; [reflexivity |].
  by rewrite as_strs_VStr; simpl; rewrite join_split.
Qed.

Lemma digit_value_digit (n : Z) : digit_value (digit n) = Some (n mod 10)%Z.
Proof.
  unfold digit_value, digit.
  pose proof (Z.mod_pos_bound n 10 ltac:(lia)) as Hlt.
  rewrite nat_ascii_embedding by lia.
  rewrite Z2Nat.id by lia.
  replace (48 <=? 48 + n mod 10)%Z with true by (symmetry; apply Z.leb_le; lia).
  replace (48 + n mod 10 <=? 57)%Z with true by (symmetry; apply Z.leb_le; lia).
  simpl. f_equal. lia.
Qed.

Lemma parse2_pad (n : Z) :
  parse2 (digit (n / 10)) (digit n) = Some (n mod 100)%Z.
Proof.
  unfold parse2. rewrite !digit_value_digit. f_equal.
  Z.div_mod_to_equations. lia.
Qed.

Lemma parse4_pad (n : Z) :
  parse4 (digit (n / 1000)) (digit (n / 100)) (digit (n / 10)) (digit n) =
    Some (n mod 10000)%Z.
Proof.
  unfold parse4.
  replace (n / 1000)%Z with (n / 100 / 10)%Z by (rewrite Z.div_div by lia; reflexivity).
  rewrite !parse2_pad. f_equal.
  Z.div_mod_to_equations. lia.
Qed.

Lemma days_in_month_le (y m : Z) : (days_in_month y m <= 31)%Z.
Proof.
  unfold days_in_month.
  destruct m as [|[[[|[]|]|[[]|[]|]|]|[[|[]|]|[[]|[]|]|]|]|]; try lia;
    destruct (is_leap y); lia.
Qed.

Lemma valid_date_bounds (d : date) :
  valid_date d = true ->
  (0 <= year d < 10000)%Z /\ (0 <= month d < 100)%Z /\ (0 <= day d < 100)%Z.
Proof.
  unfold valid_date. rewrite !andb_true_iff, !Z.leb_le.
  pose proof (days_in_month_le (year d) (month d)). lia.
Qed.

Lemma parse_date_strftime (d : date) :
  valid_date d = true -> parse_date (strftime_date d) = Some d.
Proof.
  intros Hv. destruct (valid_date_bounds d Hv) as (Hy & Hm & Hd).
  unfold strftime_date, pad4, pad2. simpl.
  rewrite parse4_pad, !parse2_pad.
  rewrite !Z.mod_small by assumption.
  destruct d as [y m dd]. simpl in *. by rewrite Hv.
Qed.

(** ** The cases of [submit_contact] *)

Lemma absent_or_empty_field_ok (k : string) (d : pydict value) :
  absent_or_empty k d <-> field_ok k d = false.
Proof.
  unfold absent_or_empty, field_ok. destruct (dict_get k d); simpl; intuition.
Qed.

Lemma field_ok_present (k : string) (d : pydict value) (v : value) :
  dict_get k d = Some v -> truthy v = true -> field_ok k d = true.
Proof. unfold field_ok. by intros ->. Qed.

Lemma submit_contact_dict (request : Request) (be : Backend) (s : Session)
    (d : pydict value) :
  get_json request = VDict d ->
  submit_contact request be s =
    if truthy (VDict d) && field_ok "name" d && field_ok "email" d
       && field_ok "message" d
    then
      match dict_get "name" d, dict_get "email" d, dict_get "message" d with
      | Some name, Some email, Some message =>
          let obj := new_ContactMessage name email
                       (default (VStr "") (dict_get "subject" d)) message
                       (opt_str (remote_addr request)) in
          if commit_fails be
          then (Ok database_error,
                {| database := database s; session_new := [] |})
          else (Ok success_no_data,
                {| database :=
                     flush be {| database := database s;
                                 session_new := session_new s ++ [obj] |};
                   session_new := [] |})
      | _, _, _ => (Ok database_error,
                    {| database := database s; session_new := [] |})
      end
    else (Ok validation_error, s).
Proof.
  intros Hd. unfold submit_contact, try_except, bind, or_, not_, py_get,
    py_getitem, dict_getitem, bind, ret, raise. rewrite Hd.
  fold (field_ok "name" d) (field_ok "email" d) (field_ok "message" d).
  destruct (truthy (VDict d)); [| reflexivity]. simpl negb. cbv iota.
  destruct (field_ok "name" d) eqn:Hn; [| reflexivity]. simpl negb. cbv iota.
  destruct (field_ok "email" d) eqn:He; [| reflexivity]. simpl negb. cbv iota.
  destruct (field_ok "message" d) eqn:Hm; [| reflexivity]. simpl negb. cbv iota.
  simpl andb. cbv iota.
  destruct (dict_get "name" d) as [name|]; [| reflexivity].
  destruct (dict_get "email" d) as [email|]; [| reflexivity].
  destruct (dict_get "message" d) as [message|]; [| reflexivity].
  unfold session_add, session_commit, session_rollback. simpl.
  destruct (commit_fails be); reflexivity.
Qed.

(** ** The project endpoints *)

Lemma collect_projects_map (rows : list Project) :
  collect_projects rows = map project_entry rows.
Proof.
  unfold collect_projects.
  assert (G : forall acc, fold_left
            (fun projects_data project => projects_data ++ [project_entry project])
            rows acc = acc ++ map project_entry rows).
  { induction rows as [|p rows IH]; intros acc; simpl.
    - by rewrite app_nil_r.
    - rewrite IH. by rewrite <- app_assoc. }
  apply (G []).
Qed.

Lemma get_projects_ok be s :
  query_fails be = false ->
  get_projects be s =
    (Ok (jsonify (projects_envelope (map project_entry (projects (database s)))
                    "Projects retrieved successfully") 200), s).
Proof.
  intros Hq. unfold get_projects, try_except, bind, Project_query_all.
  rewrite Hq. simpl. by rewrite collect_projects_map.
Qed.

Lemma get_featured_projects_ok be s :
  query_fails be = false ->
  get_featured_projects be s =
    (Ok (jsonify (projects_envelope
                    (map project_entry (List.filter is_featured (projects (database s))))
                    "Featured projects retrieved successfully") 200), s).
Proof.
  intros Hq. unfold get_featured_projects, try_except, bind, Project_query_featured.
  rewrite Hq. simpl. by rewrite collect_projects_map.
Qed.

Lemma response_projects_envelope (l : list (pydict value)) msg code :
  response_projects (Ok (jsonify (projects_envelope l msg) code)) = Some (map VDict l).
Proof. reflexivity. Qed.

(** ** The claims *)

(** C1 (as amended).  When the query succeeds, [GET /api/projects] answers
    with one dictionary per stored project, in table order, and each
    dictionary has exactly the eight keys id, title, description,
    tech_stack, date_created, github_url, demo_url and featured, once each,
    with the values [Project.to_dict] gives them; image_url and created_at
    are not in it.  The ten-field representation is the one of
    [Project.to_dict], which the endpoint does not call. *)
Theorem get_projects_entry_fields be s :
  query_fails be = false ->
  response_projects (fst (get_projects be s)) =
    Some (map (fun p => VDict (project_entry p)) (projects (database s))) /\
  forall p : Project,
    dict_keys (project_entry p) = project_entry_fields /\
    NoDup (dict_keys (project_entry p)) /\
    (forall k, k ∈ project_entry_fields ->
               dict_get k (project_entry p) = dict_get k (Project_to_dict p)) /\
    dict_get "image_url" (project_entry p) = None /\
    dict_get "created_at" (project_entry p) = None /\
    dict_keys (Project_to_dict p) = ProjectRepr_fields.
Proof.
  intros Hq. split.
  - rewrite (get_projects_ok be s Hq). simpl fst.
    rewrite response_projects_envelope. by rewrite map_map.
  - intros p. repeat split.
    + apply (bool_decide_unpack _). by vm_compute.
    + intros k Hk. unfold project_entry_fields in Hk.
      repeat (apply elem_of_cons in Hk as [-> | Hk]; [reflexivity |]).
      by apply elem_of_nil in Hk.
Qed.

(** The claim C1 fails on the seeded table: the dictionaries returned by
    [GET /api/projects] do not have the ten fields of ProjectRepr. *)
Lemma get_projects_entry_fields_counterexample :
  ~ Forall (has_exactly ProjectRepr_fields)
      (default [] (response_projects
                     (fst (get_projects Samples.healthy Samples.seeded)))).
Proof.
  intros H. apply Forall_cons in H as [H _].
  unfold has_exactly in H. apply Permutation_length in H. by vm_compute in H.
Qed.

Lemma get_projects_entry_fields_witness :
  query_fails Samples.healthy = false /\
  response_projects (fst (get_projects Samples.healthy Samples.seeded)) =
    Some (map (fun p => VDict (project_entry p))
              (projects (database Samples.seeded))).
Proof.
  split; [reflexivity |].
  exact (proj1 (get_projects_entry_fields Samples.healthy Samples.seeded eq_refl)).
Defined.

(** The claim C2 fails on the seeded table: the per-skill dictionaries
    returned by [GET /api/skills] do not have the six fields of SkillRepr. *)
Lemma get_skills_entry_fields_counterexample :
  ~ Forall (has_exactly SkillRepr_fields)
      (List.concat (dict_values
         (default [] (response_skills
                        (fst (get_skills Samples.healthy Samples.seeded)))))).
Proof.
  intros H. apply Forall_cons in H as [H _].
  unfold has_exactly in H. apply Permutation_length in H. by vm_compute in H.
Qed.

(** C2 (as amended).  When the query succeeds, [GET /api/skills] answers
    with the grouping of the stored skills, and every per-skill dictionary
    in it is the entry of a stored row of that group's category, with
    exactly the four keys id, name, proficiency_level and icon_class, once
    each, carrying the values [Skill.to_dict] gives them; category (which
    is the key of the group) and created_at are not in it.  The six-field
    representation is the one of [Skill.to_dict], which the endpoint does
    not call. *)
Theorem get_skills_entry_fields be s :
  query_fails be = false ->
  response_skills (fst (get_skills be s)) =
    Some (map (fun kv => (fst kv, map VDict (snd kv)))
              (grouped (skills (database s)))) /\
  (forall c g e, dict_get c (grouped (skills (database s))) = Some g -> e ∈ g ->
     exists x, x ∈ skills (database s) /\ category x = c /\ e = skill_entry x) /\
  forall x : Skill,
    dict_keys (skill_entry x) = skill_entry_fields /\
    NoDup (dict_keys (skill_entry x)) /\
    (forall k, k ∈ skill_entry_fields ->
               dict_get k (skill_entry x) = dict_get k (Skill_to_dict x)) /\
    dict_get "category" (skill_entry x) = None /\
    dict_get "created_at" (skill_entry x) = None /\
    dict_keys (Skill_to_dict x) = SkillRepr_fields.
Proof.
  intros Hq. split; [by apply response_skills_ok |]. split.
  - intros c g e Hg He. rewrite dict_get_grouped in Hg.
    case_bool_decide; [| discriminate]. injection Hg as <-.
    apply list_elem_of_fmap in He as (x & -> & Hx).
    apply skills_in_elem in Hx as [Hx Hc]. by exists x.
  - intros x. repeat split.
    + apply (bool_decide_unpack _). by vm_compute.
    + intros k Hk. unfold skill_entry_fields in Hk.
      repeat (apply elem_of_cons in Hk as [-> | Hk]; [reflexivity |]).
      by apply elem_of_nil in Hk.
Qed.

Lemma get_skills_entry_fields_witness :
  query_fails Samples.healthy = false /\
  response_skills (fst (get_skills Samples.healthy Samples.seeded)) =
    Some (map (fun kv => (fst kv, map VDict (snd kv)))
              (grouped (skills (database Samples.seeded)))).
Proof.
  split; [reflexivity |].
  exact (proj1 (get_skills_entry_fields Samples.healthy Samples.seeded eq_refl)).
Defined.

(** C6.  When the queries succeed, the list answered by
    [GET /api/projects/featured] is the list answered by
    [GET /api/projects] filtered to the entries whose featured flag is
    true: the same entries in the same relative order, hence a
    subsequence of it. *)
Theorem featured_projects_subsequence be s :
  query_fails be = false ->
  let entry := fun p => VDict (project_entry p) in
  let listed := map entry (projects (database s)) in
  response_projects (fst (get_projects be s)) = Some listed /\
  response_projects (fst (get_featured_projects be s)) =
    Some (List.filter entry_featured listed) /\
  sublist (List.filter entry_featured listed) listed.
Proof.
  intros Hq entry listed. split; [| split].
  - rewrite (get_projects_ok be s Hq). simpl fst.
    rewrite response_projects_envelope. unfold listed, entry. by rewrite map_map.
  - rewrite (get_featured_projects_ok be s Hq). simpl fst.
    rewrite response_projects_envelope. unfold listed. rewrite filter_map_commute.
    rewrite map_map. do 2 f_equal. apply List.filter_ext. intros p.
    symmetry. apply entry_featured_project_entry.
  - apply filter_sublist.
Qed.

Lemma featured_projects_subsequence_witness :
  query_fails Samples.healthy = false /\
  response_projects (fst (get_featured_projects Samples.healthy Samples.seeded)) =
    Some (List.filter entry_featured
            (map (fun p => VDict (project_entry p))
                 (projects (database Samples.seeded)))).
Proof.
  split; [reflexivity |].
  exact (proj1 (proj2
    (featured_projects_subsequence Samples.healthy Samples.seeded eq_refl))).
Defined.



(** C8.  A project whose stored technology field is the empty string is
    serialized with the empty sequence for tech_stack, by [Project.to_dict]
    and by the project endpoints alike; the one-element sequence holding
    the empty string is never produced for it. *)
Theorem empty_tech_stack_serializes_empty (p : Project) :
  tech_stack p = "" ->
  dict_get "tech_stack" (Project_to_dict p) = Some (VList []) /\
  dict_get "tech_stack" (project_entry p) = Some (VList []) /\
  dict_get "tech_stack" (Project_to_dict p) <> Some (VList [VStr ""]) /\
  dict_get "tech_stack" (project_entry p) <> Some (VList [VStr ""]).
Proof.
  intros Hs.
  assert (E : tech_stack_value (tech_stack p) = VList []) by (by rewrite Hs).
  unfold Project_to_dict, project_entry. simpl. rewrite E.
  repeat split; discriminate.
Qed.

Lemma empty_tech_stack_serializes_empty_witness :
  tech_stack Samples.empty_tech_project = "" /\
  dict_get "tech_stack" (Project_to_dict Samples.empty_tech_project) =
    Some (VList []).
Proof.
  split; [reflexivity |].
  exact (proj1 (empty_tech_stack_serializes_empty Samples.empty_tech_project eq_refl)).
Defined.



Lemma submit_contact_accepted request be s d name email message :
  get_json request = VDict d ->
  dict_get "name" d = Some name -> truthy name = true ->
  dict_get "email" d = Some email -> truthy email = true ->
  dict_get "message" d = Some message -> truthy message = true ->
  submit_contact request be s =
    if commit_fails be
    then (Ok database_error, {| database := database s; session_new := [] |})
    else (Ok success_no_data,
          {| database :=
               flush be {| database := database s;
                           session_new := session_new s ++
                             [new_ContactMessage name email
                                (default (VStr "") (dict_get "subject" d)) message
                                (opt_str (remote_addr request))] |};
             session_new := [] |}).
Proof.
  intros Hd Hn Hnt He Het Hm Hmt.
  rewrite (submit_contact_dict request be s d Hd).
  rewrite (field_ok_present _ _ _ Hn Hnt), (field_ok_present _ _ _ He Het),
    (field_ok_present _ _ _ Hm Hmt), Hn, He, Hm.
  destruct d; [discriminate | reflexivity].
Qed.

Lemma flush_single be db obj :
  cm_id obj = None -> cm_created_at obj = None -> read_status obj = None ->
  flush be {| database := db; session_new := [obj] |} =
    with_contact_messages db
      (contact_messages db ++
       [stored_message be (contact_messages db) (cm_name obj) (cm_email obj)
          (cm_subject obj) (cm_message obj) (ip_address obj)]).
Proof.
  intros H1 H2 H3. unfold flush, with_contact_messages, insert_row, stored_message.
  simpl. by rewrite H1, H2, H3.
Qed.

Lemma submit_contact_stored request be s d name email message :
  get_json request = VDict d ->
  dict_get "name" d = Some name -> truthy name = true ->
  dict_get "email" d = Some email -> truthy email = true ->
  dict_get "message" d = Some message -> truthy message = true ->
  commit_fails be = false -> session_new s = [] ->
  submit_contact request be s =
    (Ok success_no_data,
     {| database :=
          with_contact_messages (database s)
            (contact_messages (database s) ++
             [stored_message be (contact_messages (database s)) name email
                (default (VStr "") (dict_get "subject" d)) message
                (opt_str (remote_addr request))]);
        session_new := [] |}).
Proof.
  intros Hd Hn Hnt He Het Hm Hmt Hc Hs.
  rewrite (submit_contact_accepted request be s d name email message) by assumption.
  rewrite Hc, Hs. simpl app. by rewrite flush_single.
Qed.

(** C3.  A submission whose body is empty, or is an object in which
    name, email or message is absent or empty, is answered with the
    envelope status=error, error.code=VALIDATION_ERROR and status 400, and
    leaves the session and the database exactly as they were: no
    ContactMessage is added or written. *)
Theorem submit_contact_rejects_missing_fields request be s :
  lacks_required_field (get_json request) ->
  submit_contact request be s = (Ok validation_error, s) /\
  response_status validation_error = Some (VStr "error") /\
  response_error_code validation_error = Some (VStr "VALIDATION_ERROR") /\
  status_code validation_error = 400%Z.
Proof.
  intros Hlack. split; [| by repeat split].
  destruct (get_json request) as [| b | z | w | l | d] eqn:Hd.
  6: { rewrite (submit_contact_dict request be s d Hd).
       simpl in Hlack. rewrite !absent_or_empty_field_ok in Hlack.
       destruct Hlack as [-> | [-> | ->]]; by rewrite ?andb_false_r. }
  all: unfold submit_contact, try_except, bind, or_, not_, bind, ret;
    rewrite Hd, Hlack; reflexivity.
Qed.

Lemma submit_contact_rejects_missing_fields_witness :
  lacks_required_field (get_json Samples.empty_name) /\
  submit_contact Samples.empty_name Samples.healthy Samples.seeded =
    (Ok validation_error, Samples.seeded).
Proof.
  assert (H : lacks_required_field (get_json Samples.empty_name))
    by (left; reflexivity).
  split; [exact H |].
  exact (proj1 (submit_contact_rejects_missing_fields
                  Samples.empty_name Samples.healthy Samples.seeded H)).
Defined.

(** C4.  When a submission passes validation and the commit raises, the
    handler rolls the session back and then answers status=error with
    error.code=DATABASE_ERROR and status 500: the database is the one
    before the request and no object is left pending, so a request that
    began with a clean session ends in the state it started from. *)
Theorem submit_contact_rolls_back request be s d name email message :
  get_json request = VDict d ->
  dict_get "name" d = Some name -> truthy name = true ->
  dict_get "email" d = Some email -> truthy email = true ->
  dict_get "message" d = Some message -> truthy message = true ->
  commit_fails be = true ->
  submit_contact request be s =
    (Ok database_error, {| database := database s; session_new := [] |}) /\
  response_status database_error = Some (VStr "error") /\
  response_error_code database_error = Some (VStr "DATABASE_ERROR") /\
  status_code database_error = 500%Z /\
  (session_new s = [] -> {| database := database s; session_new := [] |} = s).
Proof.
  intros Hd Hn Hnt He Het Hm Hmt Hc.
  rewrite (submit_contact_accepted request be s d name email message) by assumption.
  rewrite Hc. repeat split. intros Hs. destruct s as [db new]. simpl in *. by subst.
Qed.

Lemma submit_contact_rolls_back_witness :
  commit_fails Samples.broken = true /\
  submit_contact Samples.john_doe Samples.broken Samples.seeded =
    (Ok database_error, Samples.seeded).
Proof.
  split; [reflexivity |].
  exact (proj1 (submit_contact_rolls_back Samples.john_doe Samples.broken
                  Samples.seeded _ (VStr "John Doe") (VStr "john@example.com")
                  (VStr "Test message")
                  eq_refl eq_refl eq_refl eq_refl eq_refl eq_refl eq_refl eq_refl)).
Defined.

(** C5.  A submission with non-empty name, email and message, handled from
    a clean session while the store accepts the write, appends exactly one
    row to the contact messages (projects and skills are untouched); the
    row carries the submitted name, email and message, the submitted
    subject or the empty string when the body has none, and the peer
    address of the request; the answer is the success envelope, status
    200, with no data member. *)
Theorem submit_contact_persists_message request be s d name email message :
  get_json request = VDict d ->
  dict_get "name" d = Some name -> truthy name = true ->
  dict_get "email" d = Some email -> truthy email = true ->
  dict_get "message" d = Some message -> truthy message = true ->
  commit_fails be = false -> session_new s = [] ->
  submit_contact request be s =
    (Ok success_no_data,
     {| database :=
          with_contact_messages (database s)
            (contact_messages (database s) ++
             [stored_message be (contact_messages (database s)) name email
                (default (VStr "") (dict_get "subject" d)) message
                (opt_str (remote_addr request))]);
        session_new := [] |}) /\
  response_status success_no_data = Some (VStr "success") /\
  value_get "data" (body success_no_data) = None /\
  status_code success_no_data = 200%Z.
Proof.
  intros. split; [by apply submit_contact_stored | by repeat split].
Qed.

Lemma submit_contact_persists_message_witness :
  commit_fails Samples.healthy = false /\
  session_new Samples.seeded = [] /\
  submit_contact Samples.john_doe Samples.healthy Samples.seeded =
    (Ok success_no_data,
     {| database :=
          with_contact_messages (database Samples.seeded)
            [stored_message Samples.healthy [] (VStr "John Doe")
               (VStr "john@example.com") (VStr "") (VStr "Test message")
               (VStr "127.0.0.1")];
        session_new := [] |}).
Proof.
  split; [reflexivity |]. split; [reflexivity |].
  exact (proj1 (submit_contact_persists_message Samples.john_doe Samples.healthy
                  Samples.seeded _ (VStr "John Doe") (VStr "john@example.com")
                  (VStr "Test message")
                  eq_refl eq_refl eq_refl eq_refl eq_refl eq_refl eq_refl
                  eq_refl eq_refl)).
Defined.

Lemma isspace_truthy (w : string) : isspace w = true -> truthy (VStr w) = true.
Proof. unfold isspace. by intros [H _]%andb_true_iff. Qed.

(** C10.  The required-field check looks at truth values only: when name,
    email and message are strings made of whitespace alone (a single
    space, say), validation passes and, from a clean session with the
    store accepting the write, a ContactMessage carrying those
    whitespace-only strings is written and the success envelope answered. *)
Theorem submit_contact_accepts_whitespace request be s d name email message :
  get_json request = VDict d ->
  dict_get "name" d = Some (VStr name) -> isspace name = true ->
  dict_get "email" d = Some (VStr email) -> isspace email = true ->
  dict_get "message" d = Some (VStr message) -> isspace message = true ->
  commit_fails be = false -> session_new s = [] ->
  submit_contact request be s =
    (Ok success_no_data,
     {| database :=
          with_contact_messages (database s)
            (contact_messages (database s) ++
             [stored_message be (contact_messages (database s))
                (VStr name) (VStr email)
                (default (VStr "") (dict_get "subject" d)) (VStr message)
                (opt_str (remote_addr request))]);
        session_new := [] |}) /\
  response_status success_no_data = Some (VStr "success").
Proof.
  intros Hd Hn Hns He Hes Hm Hms Hc Hs.
  split; [| reflexivity].
  apply submit_contact_stored; auto using isspace_truthy.
Qed.

Lemma submit_contact_accepts_whitespace_witness :
  isspace " " = true /\
  commit_fails Samples.healthy = false /\
  session_new Samples.seeded = [] /\
  submit_contact Samples.blank_fields Samples.healthy Samples.seeded =
    (Ok success_no_data,
     {| database :=
          with_contact_messages (database Samples.seeded)
            [stored_message Samples.healthy [] (VStr " ") (VStr " ")
               (VStr "") (VStr " ") (VStr "127.0.0.1")];
        session_new := [] |}).
Proof.
  split; [reflexivity |]. split; [reflexivity |]. split; [reflexivity |].
  exact (proj1 (submit_contact_accepts_whitespace Samples.blank_fields
                  Samples.healthy Samples.seeded _ " " " " " "
                  eq_refl eq_refl eq_refl eq_refl eq_refl eq_refl eq_refl
                  eq_refl eq_refl)).
Defined.

(** * Further properties of the modelled code *)

(** ** Further properties: the read endpoints *)

Lemma get_projects_failed be s :
  query_fails be = true ->
  get_projects be s =
    (Ok (jsonify (error_envelope "DATABASE_ERROR" "Failed to retrieve projects") 500), s).
Proof.
  intros Hq. unfold get_projects, try_except, bind, Project_query_all.
  by rewrite Hq.
Qed.

Lemma get_featured_projects_failed be s :
  query_fails be = true ->
  get_featured_projects be s =
    (Ok (jsonify (error_envelope "DATABASE_ERROR"
                    "Failed to retrieve featured projects") 500), s).
Proof.
  intros Hq. unfold get_featured_projects, try_except, bind, Project_query_featured.
  by rewrite Hq.
Qed.

Lemma get_skills_failed be s :
  query_fails be = true ->
  get_skills be s =
    (Ok (jsonify (error_envelope "DATABASE_ERROR" "Failed to retrieve skills") 500), s).
Proof.
  intros Hq. unfold get_skills, try_except, bind, Skill_query_all.
  by rewrite Hq.
Qed.

(** X1.  A read endpoint never lets an exception escape: it answers 200
    with the success envelope when its query succeeds and 500 with
    error.code=DATABASE_ERROR, and no list at all, when the query raises. *)
Theorem read_endpoints_status be s :
  exists r1 r2 r3,
    fst (get_projects be s) = Ok r1 /\
    fst (get_featured_projects be s) = Ok r2 /\
    fst (get_skills be s) = Ok r3 /\
    Forall (fun r =>
              status_code r = (if query_fails be then 500 else 200)%Z /\
              response_status r =
                Some (VStr (if query_fails be then "error" else "success")) /\
              response_error_code r =
                (if query_fails be then Some (VStr "DATABASE_ERROR") else None) /\
              (query_fails be = true -> value_get "data" (body r) = None))
           [r1; r2; r3].
Proof.
  destruct (query_fails be) eqn:Hq.
  - rewrite (get_projects_failed be s Hq), (get_featured_projects_failed be s Hq),
      (get_skills_failed be s Hq).
    do 3 eexists. repeat split; try reflexivity.
    repeat constructor.
  - rewrite (get_projects_ok be s Hq), (get_featured_projects_ok be s Hq),
      (get_skills_ok be s Hq).
    do 3 eexists. repeat split; try reflexivity.
    repeat constructor; discriminate.
Qed.

(** X2.  The read endpoints only read: whatever the outcome, the session
    and the database they return are the ones they were given, so asking
    again gives the same answer. *)
Theorem read_endpoints_leave_state be s :
  snd (get_projects be s) = s /\
  snd (get_featured_projects be s) = s /\
  snd (get_skills be s) = s /\
  get_projects be (snd (get_projects be s)) = get_projects be s /\
  get_featured_projects be (snd (get_featured_projects be s)) =
    get_featured_projects be s /\
  get_skills be (snd (get_skills be s)) = get_skills be s.
Proof.
  assert (H : snd (get_projects be s) = s /\
              snd (get_featured_projects be s) = s /\
              snd (get_skills be s) = s).
  { destruct (query_fails be) eqn:Hq.
    - by rewrite (get_projects_failed be s Hq), (get_featured_projects_failed be s Hq),
        (get_skills_failed be s Hq).
    - by rewrite (get_projects_ok be s Hq), (get_featured_projects_ok be s Hq),
        (get_skills_ok be s Hq). }
  destruct H as (H1 & H2 & H3). rewrite H1, H2, H3. by repeat split.
Qed.

Lemma elem_of_List_filter {A} (f : A -> bool) (l : list A) (x : A) :
  x ∈ List.filter f l <-> x ∈ l /\ f x = true.
Proof. by rewrite !list_elem_of_In, filter_In. Qed.

(** X3.  When the query succeeds, an entry is answered by
    [GET /api/projects/featured] exactly when it is the entry of a stored
    project whose featured flag is true; a project whose flag is false or
    NULL is left out, and every entry answered has featured == true. *)
Theorem featured_entries_flagged be s :
  query_fails be = false ->
  exists listed,
    response_projects (fst (get_featured_projects be s)) = Some listed /\
    (forall v, v ∈ listed <->
       exists p, p ∈ projects (database s) /\ featured p = Some true /\
                 v = VDict (project_entry p)) /\
    Forall (fun v => value_get "featured" v = Some (VBool true)) listed.
Proof.
  intros Hq. rewrite (get_featured_projects_ok be s Hq). simpl fst.
  rewrite response_projects_envelope. eexists. split; [reflexivity |].
  assert (Hflag : forall p, is_featured p = true <-> featured p = Some true).
  { intros p. unfold is_featured. destruct (featured p) as [[|]|]; intuition congruence. }
  split.
  - intros v. rewrite map_map, list_elem_of_fmap. split.
    + intros (p & -> & Hp). apply elem_of_List_filter in Hp as [Hp Hf].
      exists p. by rewrite <- Hflag.
    + intros (p & Hp & Hf & ->). exists p. split; [reflexivity |].
      apply elem_of_List_filter. by rewrite Hflag.
  - rewrite map_map. apply Forall_fmap, Forall_forall. intros p Hp.
    apply elem_of_List_filter in Hp as [_ Hf]. apply Hflag in Hf.
    simpl. unfold project_entry. simpl. by rewrite Hf.
Qed.

Lemma featured_entries_flagged_witness :
  query_fails Samples.healthy = false /\
  exists listed,
    response_projects (fst (get_featured_projects Samples.healthy Samples.seeded)) =
      Some listed /\
    Forall (fun v => value_get "featured" v = Some (VBool true)) listed.
Proof.
  split; [reflexivity |].
  destruct (featured_entries_flagged Samples.healthy Samples.seeded eq_refl)
    as (listed & H1 & _ & H3).
  exists listed. by split.
Defined.

Lemma grouped_entries_perm (rows : list Skill) :
  List.concat (dict_values (grouped rows)) ≡ₚ map skill_entry rows.
Proof.
  transitivity (map skill_entry
                  (List.concat (map (fun c => skills_in c rows)
                                    (first_seen (map category rows))))).
  - rewrite List.concat_map. unfold dict_values, grouped. by rewrite !map_map.
  - apply Permutation_map, skills_in_cover; [apply first_seen_NoDup |].
    intros x Hx. apply first_seen_elem, list_elem_of_fmap. by exists x.
Qed.

Lemma first_seen_length (l : list string) : List.length (first_seen l) <= List.length l.
Proof.
  induction l as [|c l IH]; simpl; [lia |].
  pose proof (List.filter_length_le (fun c' => negb (String.eqb c' c)) (first_seen l)).
  lia.
Qed.

(** X4.  When the query succeeds, no group answered by [GET /api/skills]
    is empty, a category no stored skill has is not a key at all, and the
    groups together hold as many entries as the table has rows. *)
Theorem skill_groups_nonempty be s :
  query_fails be = false ->
  let rows := skills (database s) in
  response_skills (fst (get_skills be s)) =
    Some (map (fun kv => (fst kv, map VDict (snd kv))) (grouped rows)) /\
  (forall c g, dict_get c (grouped rows) = Some g -> g <> []) /\
  (forall c, (forall x, x ∈ rows -> category x <> c) ->
             dict_get c (grouped rows) = None) /\
  List.length (List.concat (dict_values (grouped rows))) = List.length rows /\
  List.length (grouped rows) <= List.length rows.
Proof.
  intros Hq rows. split; [by apply response_skills_ok |].
  split; [| split; [| split]].
  - intros c g Hg. rewrite dict_get_grouped in Hg.
    case_bool_decide as Hc; [| discriminate]. injection Hg as <-.
    apply list_elem_of_fmap in Hc as (x & -> & Hx).
    assert (Hin : x ∈ skills_in (category x) rows) by (by apply skills_in_elem).
    intros E. apply (f_equal (@List.length _)) in E. rewrite length_map in E.
    destruct (skills_in (category x) rows); [by apply elem_of_nil in Hin | discriminate].
  - intros c Hc. rewrite dict_get_grouped.
    rewrite bool_decide_eq_false_2; [reflexivity |].
    intros (x & -> & Hx)%list_elem_of_fmap. by apply (Hc x).
  - rewrite (Permutation_length (grouped_entries_perm rows)). apply length_map.
  - unfold grouped. rewrite length_map.
    rewrite <- (length_map category rows). apply first_seen_length.
Qed.

Lemma skill_groups_nonempty_witness :
  query_fails Samples.healthy = false /\
  List.length (List.concat (dict_values (grouped (skills (database Samples.seeded))))) =
    List.length (skills (database Samples.seeded)).
Proof.
  split; [reflexivity |].
  exact (proj1 (proj2 (proj2 (proj2
    (skill_groups_nonempty Samples.healthy Samples.seeded eq_refl))))).
Defined.

(** X18.  When the query succeeds, the list of [GET /api/projects] is
    empty exactly when no project is stored, and the skills object of
    [GET /api/skills] is empty exactly when no skill is stored: an empty
    table is answered with an empty payload, not with an error. *)
Theorem empty_tables_empty_payloads be s :
  query_fails be = false ->
  (response_projects (fst (get_projects be s)) = Some [] <->
     projects (database s) = []) /\
  (response_projects (fst (get_featured_projects be s)) = Some [] <->
     Forall (fun p => featured p <> Some true) (projects (database s))) /\
  (response_skills (fst (get_skills be s)) = Some [] <->
     skills (database s) = []).
Proof.
  intros Hq. rewrite (get_projects_ok be s Hq), (get_featured_projects_ok be s Hq),
    (response_skills_ok be s Hq). simpl fst. rewrite !response_projects_envelope.
  split; [| split].
  - destruct (projects (database s)); simpl; split; congruence.
  - induction (projects (database s)) as [|p rows IH]; simpl.
    + split; [constructor | reflexivity].
    + unfold is_featured at 1. rewrite Forall_cons.
      destruct (featured p) as [[|]|]; simpl.
      * split; [discriminate | intros [H _]; congruence].
      * rewrite IH. split; [by split | tauto].
      * rewrite IH. split; [by split | tauto].
  - destruct (skills (database s)); simpl; split; congruence.
Qed.

Lemma empty_tables_empty_payloads_witness :
  query_fails Samples.healthy = false /\
  response_projects
    (fst (get_projects Samples.healthy (InitDb.serving InitDb.empty_database))) =
    Some [].
Proof.
  split; [reflexivity |].
  exact (proj2 (proj1 (empty_tables_empty_payloads Samples.healthy
                         (InitDb.serving InitDb.empty_database) eq_refl)) eq_refl).
Defined.

(** ** Further properties: contact submissions *)

Lemma submit_contact_outcome request be s :
  submit_contact request be s =
    match contact_outcome (get_json request) be with
    | Rejected => (Ok validation_error, s)
    | Failed => (Ok database_error, rolled_back s)
    | Stored =>
        (Ok success_no_data,
         {| database :=
              flush be {| database := database s;
                          session_new := session_new s ++ [submitted request] |};
            session_new := [] |})
    end.
Proof.
  unfold contact_outcome, submitted.
  destruct (get_json request) as [| b | z | w | l | d] eqn:Hd.
  6: { rewrite (submit_contact_dict request be s d Hd). simpl body_fields.
       destruct (truthy (VDict d)); [| reflexivity]. simpl negb. cbv iota.
       rewrite andb_true_l.
       destruct (field_ok "name" d) eqn:Hn; [| reflexivity].
       destruct (field_ok "email" d) eqn:He; [| reflexivity].
       destruct (field_ok "message" d) eqn:Hm; [| reflexivity].
       simpl andb. cbv iota. unfold field_ok in Hn, He, Hm.
       destruct (dict_get "name" d); [| discriminate].
       destruct (dict_get "email" d); [| discriminate].
       destruct (dict_get "message" d); [| discriminate].
       destruct (commit_fails be); reflexivity. }
  all: unfold submit_contact, try_except, bind, or_, not_, bind, ret, py_get, raise;
    rewrite Hd; destruct (truthy _); reflexivity.
Qed.

Lemma contact_outcome_rejected data be :
  contact_outcome data be = Rejected <-> lacks_required_field data.
Proof.
  unfold contact_outcome, lacks_required_field.
  destruct data as [| b | z | w | l | d].
  6: { rewrite !absent_or_empty_field_ok.
       destruct d as [|kv d']; [simpl; intuition |].
       change (truthy (VDict (kv :: d'))) with true. simpl negb. cbv iota.
       destruct (field_ok "name" (kv :: d')), (field_ok "email" (kv :: d')),
         (field_ok "message" (kv :: d'));
         simpl; destruct (commit_fails be); intuition discriminate. }
  all: destruct (truthy _); simpl; intuition discriminate.
Qed.

Lemma contact_outcome_spec data be :
  match contact_outcome data be with
  | Rejected => lacks_required_field data
  | Stored =>
      ~ lacks_required_field data /\ is_object data = true /\
      commit_fails be = false
  | Failed =>
      ~ lacks_required_field data /\
      (is_object data = false \/ commit_fails be = true)
  end.
Proof.
  pose proof (contact_outcome_rejected data be) as Hrej.
  destruct (contact_outcome data be) eqn:Ho.
  - by apply Hrej.
  - split; [intros H; apply Hrej in H; discriminate |].
    unfold contact_outcome in Ho.
    destruct data; simpl; auto.
    destruct (negb _); [discriminate |].
    destruct (_ && _); [| discriminate].
    destruct (commit_fails be); [by right | discriminate].
  - split; [intros H; apply Hrej in H; discriminate |].
    unfold contact_outcome in Ho.
    destruct data; simpl; try (destruct (negb _); discriminate).
    destruct (negb _); [discriminate |].
    destruct (_ && _); [| discriminate].
    destruct (commit_fails be); [discriminate | by split].
Qed.


(** X6.  A non-empty body that is not a JSON object (an array, a string,
    a number, [true]) is not a validation error: the [.get] on it raises,
    the handler rolls back and answers 500 with error.code=DATABASE_ERROR;
    nothing is stored. *)
Theorem submit_contact_non_object request be s :
  is_object (get_json request) = false ->
  truthy (get_json request) = true ->
  submit_contact request be s = (Ok database_error, rolled_back s) /\
  status_code database_error = 500%Z /\
  response_error_code database_error = Some (VStr "DATABASE_ERROR") /\
  database (rolled_back s) = database s.
Proof.
  intros Ho Ht. split; [| by repeat split].
  rewrite submit_contact_outcome. unfold contact_outcome. rewrite Ht.
  by destruct (get_json request).
Qed.

Lemma submit_contact_non_object_witness :
  is_object (get_json Samples.array_body) = false /\
  truthy (get_json Samples.array_body) = true /\
  submit_contact Samples.array_body Samples.healthy Samples.seeded =
    (Ok database_error, Samples.seeded).
Proof.
  split; [reflexivity |]. split; [reflexivity |].
  exact (proj1 (submit_contact_non_object Samples.array_body Samples.healthy
                  Samples.seeded eq_refl eq_refl)).
Defined.

Lemma insert_rows_prefix be (new rows : list ContactMessage) :
  rows `prefix_of` fold_left (insert_row be) new rows.
Proof.
  revert rows. induction new as [|m new IH]; intros rows; simpl; [reflexivity |].
  etransitivity; [| apply IH]. unfold insert_row. by apply prefix_app_r.
Qed.

Lemma submit_contact_database request be s :
  database (snd (submit_contact request be s)) = database s \/
  database (snd (submit_contact request be s)) =
    flush be {| database := database s;
                session_new := session_new s ++ [submitted request] |}.
Proof.
  rewrite submit_contact_outcome.
  destruct (contact_outcome (get_json request) be); simpl; auto.
Qed.

(** X7.  Whatever the request and the outcome, [POST /api/contact] leaves
    the projects and the skills as they were and never removes or alters a
    contact message already stored: the old rows are a prefix of the new
    table. *)
Theorem submit_contact_keeps_tables request be s :
  projects (database (snd (submit_contact request be s))) = projects (database s) /\
  skills (database (snd (submit_contact request be s))) = skills (database s) /\
  contact_messages (database s) `prefix_of`
    contact_messages (database (snd (submit_contact request be s))).
Proof.
  destruct (submit_contact_database request be s) as [-> | ->].
  - by repeat split.
  - repeat split. apply insert_rows_prefix.
Qed.

(** X8.  From a clean session, a contact message is written exactly when
    the answer is 200: then the table grows by the one row built from the
    request; with any other answer the database is the one before.  Either
    way the session ends clean. *)
Theorem submit_contact_stores_iff_success request be s :
  session_new s = [] ->
  exists resp,
    fst (submit_contact request be s) = Ok resp /\
    session_new (snd (submit_contact request be s)) = [] /\
    (status_code resp = 200%Z ->
       contact_messages (database (snd (submit_contact request be s))) =
         contact_messages (database s) ++
         [stored_message be (contact_messages (database s))
            (cm_name (submitted request)) (cm_email (submitted request))
            (cm_subject (submitted request)) (cm_message (submitted request))
            (opt_str (remote_addr request))]) /\
    (status_code resp <> 200%Z ->
       database (snd (submit_contact request be s)) = database s).
Proof.
  intros Hs. rewrite submit_contact_outcome.
  destruct (contact_outcome (get_json request) be); eexists;
    (split; [reflexivity |]); simpl.
  - split; [exact Hs |]. split; [discriminate | reflexivity].
  - split; [reflexivity |]. split; [discriminate | reflexivity].
  - split; [reflexivity |]. split; [| congruence].
    intros _. rewrite Hs. reflexivity.
Qed.

Lemma submit_contact_stores_iff_success_witness :
  session_new Samples.seeded = [] /\
  exists resp,
    fst (submit_contact Samples.john_doe Samples.healthy Samples.seeded) = Ok resp /\
    session_new (snd (submit_contact Samples.john_doe Samples.healthy Samples.seeded)) = [].
Proof.
  split; [reflexivity |].
  destruct (submit_contact_stores_iff_success Samples.john_doe Samples.healthy
              Samples.seeded eq_refl) as (resp & H1 & H2 & _).
  exists resp. by split.
Defined.

Lemma get_projects_reads_projects be s1 s2 :
  projects (database s1) = projects (database s2) ->
  fst (get_projects be s1) = fst (get_projects be s2) /\
  fst (get_featured_projects be s1) = fst (get_featured_projects be s2).
Proof.
  intros H. destruct (query_fails be) eqn:Hq.
  - by rewrite !(get_projects_failed be _ Hq), !(get_featured_projects_failed be _ Hq).
  - by rewrite !(get_projects_ok be _ Hq), !(get_featured_projects_ok be _ Hq), H.
Qed.

Lemma get_skills_reads_skills be s1 s2 :
  skills (database s1) = skills (database s2) ->
  fst (get_skills be s1) = fst (get_skills be s2).
Proof.
  intros H. destruct (query_fails be) eqn:Hq.
  - by rewrite !(get_skills_failed be _ Hq).
  - by rewrite !(get_skills_ok be _ Hq), H.
Qed.

(** X9.  A contact submission, whatever its outcome, does not change what
    the three read endpoints answer afterwards. *)
Theorem reads_unaffected_by_submission request be be' s :
  let s' := snd (submit_contact request be s) in
  fst (get_projects be' s') = fst (get_projects be' s) /\
  fst (get_featured_projects be' s') = fst (get_featured_projects be' s) /\
  fst (get_skills be' s') = fst (get_skills be' s).
Proof.
  intros s'.
  assert (Hp : projects (database s') = projects (database s) /\
               skills (database s') = skills (database s)).
  { unfold s'. destruct (submit_contact_database request be s) as [-> | ->];
      by split. }
  destruct Hp as [Hp Hk].
  destruct (get_projects_reads_projects be' s' s Hp) as [H1 H2].
  split; [exact H1 |]. split; [exact H2 |]. by apply get_skills_reads_skills.
Qed.

Lemma contact_outcome_fields d d' be :
  (forall k, k ∈ contact_keys -> dict_get k d = dict_get k d') ->
  contact_outcome (VDict d) be = contact_outcome (VDict d') be.
Proof.
  intros H.
  assert (Hk : forall dd, contact_outcome (VDict dd) be =
                 if field_ok "name" dd && field_ok "email" dd && field_ok "message" dd
                 then (if commit_fails be then Failed else Stored) else Rejected).
  { intros [|kv dd]; reflexivity. }
  rewrite !Hk. unfold field_ok.
  rewrite (H "name"), (H "email"), (H "message"); [reflexivity | |  |];
    unfold contact_keys; set_solver.
Qed.

(** X10.  Only the keys name, email, subject and message of the body are
    read: two object bodies that agree on these four, sent from the same
    address, get the same answer and leave the same state, so no other key
    of the body (id, read_status, created_at, ip_address, ...) can reach
    the stored row. *)
Theorem submit_contact_reads_four_keys request request' be s d d' :
  get_json request = VDict d ->
  get_json request' = VDict d' ->
  remote_addr request = remote_addr request' ->
  (forall k, k ∈ contact_keys -> dict_get k d = dict_get k d') ->
  submit_contact request be s = submit_contact request' be s.
Proof.
  intros Hd Hd' Haddr H.
  rewrite !submit_contact_outcome. unfold submitted. rewrite Hd, Hd', Haddr.
  rewrite (contact_outcome_fields d d' be H). simpl body_fields.
  rewrite (H "name"), (H "email"), (H "subject"), (H "message");
    [reflexivity | | | |]; unfold contact_keys; set_solver.
Qed.

Lemma submit_contact_reads_four_keys_witness :
  remote_addr Samples.john_doe = remote_addr Samples.forged_fields /\
  submit_contact Samples.john_doe Samples.healthy Samples.seeded =
  submit_contact Samples.forged_fields Samples.healthy Samples.seeded.
Proof.
  split; [reflexivity |].
  apply (submit_contact_reads_four_keys Samples.john_doe Samples.forged_fields
           Samples.healthy Samples.seeded _ _ eq_refl eq_refl eq_refl).
  intros k Hk. unfold contact_keys in Hk.
  repeat (apply elem_of_cons in Hk as [-> | Hk]; [reflexivity |]).
  by apply elem_of_nil in Hk.
Defined.



(** ** Further properties: serialized fields *)

Lemma split_no_sep (sep : ascii) (s : string) :
  Forall (fun w => contains_char sep w = false) (split sep s).
Proof.
  induction s as [|c s IH]; simpl; [by repeat constructor |].
  destruct (Ascii.eqb c sep) eqn:Hc.
  - by constructor.
  - destruct (split sep s) as [|w ws]; [by repeat constructor; simpl; rewrite Hc |].
    apply Forall_cons in IH as [Hw Hws]. constructor; [| exact Hws].
    simpl. by rewrite Hc, Hw.
Qed.

Lemma split_length (sep : ascii) (s : string) :
  List.length (split sep s) = S (count_char sep s).
Proof.
  induction s as [|c s IH]; simpl; [reflexivity |].
  destruct (Ascii.eqb c sep); simpl; [by rewrite IH |].
  destruct (split sep s) as [|w ws]; simpl in *; lia.
Qed.

(** X12.  The tech_stack sequence of a project holds one element per
    comma-separated piece of the stored field: no element contains a comma,
    a non-empty field with n commas gives n + 1 elements (pieces may be
    empty strings), and only the empty field gives the empty sequence. *)
Theorem tech_stack_elements (p : Project) :
  exists ws,
    dict_get "tech_stack" (Project_to_dict p) = Some (VList (map VStr ws)) /\
    dict_get "tech_stack" (project_entry p) = Some (VList (map VStr ws)) /\
    Forall (fun w => contains_char "," w = false) ws /\
    List.length ws =
      (if str_truthy (tech_stack p) then S (count_char "," (tech_stack p)) else 0) /\
    (ws = [] <-> tech_stack p = "").
Proof.
  unfold Project_to_dict, project_entry. simpl. unfold tech_stack_value, str_truthy.
  destruct (String.eqb_spec (tech_stack p) "") as [E | E]; simpl.
  - exists []. by repeat split.
  - exists (split "," (tech_stack p)).
    split; [reflexivity |]. split; [reflexivity |].
    split; [apply split_no_sep |]. split; [apply split_length |].
    split; [| contradiction]. intros H. by apply split_not_nil in H.
Qed.

Lemma valid_datetime_bounds (t : datetime) :
  valid_datetime t = true ->
  valid_date (dt_date t) = true /\
  (0 <= hour t < 100)%Z /\ (0 <= minute t < 100)%Z /\ (0 <= second t < 100)%Z.
Proof.
  unfold valid_datetime. rewrite !andb_true_iff, !Z.leb_le.
  intros ((((((Hd & H1) & H2) & H3) & H4) & H5) & H6). split; [exact Hd | lia].
Qed.

Lemma parse_datetime_strftime (t : datetime) :
  valid_datetime t = true -> parse_datetime (strftime_datetime t) = Some t.
Proof.
  intros Hv. destruct (valid_datetime_bounds t Hv) as (Hd & Hh & Hm & Hs).
  destruct (valid_date_bounds _ Hd) as (Hy & Hmo & Hda).
  unfold strftime_datetime, strftime_date, pad4, pad2. simpl.
  rewrite parse4_pad, !parse2_pad.
  rewrite !Z.mod_small by assumption.
  destruct t as [[y m d] h n sec]. simpl in *. by rewrite Hv.
Qed.

Lemma reparse_created_at_value (o : option datetime) :
  (forall t, o = Some t -> valid_datetime t = true) ->
  reparse_created_at (created_at_value o) = Some o.
Proof.
  intros Hv. destruct o as [t|]; [| reflexivity].
  change (option_map Some (parse_datetime (strftime_datetime t)) = Some (Some t)).
  by rewrite (parse_datetime_strftime t (Hv t eq_refl)).
Qed.



Lemma digit_compare (x y : Z) :
  Ascii.compare (digit x) (digit y) = (x mod 10 ?= y mod 10)%Z.
Proof.
  unfold Ascii.compare, digit, ascii_of_nat.
  pose proof (Z.mod_pos_bound x 10 ltac:(lia)).
  pose proof (Z.mod_pos_bound y 10 ltac:(lia)).
  rewrite !N_ascii_embedding by lia.
  rewrite <- Nat2N.inj_compare, Z2Nat.inj_compare by lia.
  apply Z.add_compare_mono_l.
Qed.

Lemma compare_pad2 (x y : Z) (K : comparison) :
  (0 <= x < 100)%Z -> (0 <= y < 100)%Z ->
  match (x / 10 mod 10 ?= y / 10 mod 10)%Z with
  | Eq => match (x mod 10 ?= y mod 10)%Z with Eq => K | c => c end
  | c => c
  end = match (x ?= y)%Z with Eq => K | c => c end.
Proof.
  intros Hx Hy.
  destruct (Z.compare_spec (x / 10 mod 10) (y / 10 mod 10)) as [E1 | L1 | G1];
    [destruct (Z.compare_spec (x mod 10) (y mod 10)) as [E2 | L2 | G2] | |].
  - assert (x = y) as -> by (Z.div_mod_to_equations; lia).
    by rewrite Z.compare_refl.
  - by rewrite (proj2 (Z.compare_lt_iff x y)) by (Z.div_mod_to_equations; lia).
  - by rewrite (proj2 (Z.compare_gt_iff x y)) by (Z.div_mod_to_equations; lia).
  - by rewrite (proj2 (Z.compare_lt_iff x y)) by (Z.div_mod_to_equations; lia).
  - by rewrite (proj2 (Z.compare_gt_iff x y)) by (Z.div_mod_to_equations; lia).
Qed.

Lemma compare_pad4 (x y : Z) (K : comparison) :
  (0 <= x < 10000)%Z -> (0 <= y < 10000)%Z ->
  match (x / 1000 mod 10 ?= y / 1000 mod 10)%Z with
  | Eq =>
      match (x / 100 mod 10 ?= y / 100 mod 10)%Z with
      | Eq =>
          match (x / 10 mod 10 ?= y / 10 mod 10)%Z with
          | Eq => match (x mod 10 ?= y mod 10)%Z with Eq => K | c => c end
          | c => c
          end
      | c => c
      end
  | c => c
  end = match (x ?= y)%Z with Eq => K | c => c end.
Proof.
  intros Hx Hy.
  destruct (Z.compare_spec (x / 1000 mod 10) (y / 1000 mod 10)) as [E1 | L1 | G1];
    [destruct (Z.compare_spec (x / 100 mod 10) (y / 100 mod 10)) as [E2 | L2 | G2];
     [destruct (Z.compare_spec (x / 10 mod 10) (y / 10 mod 10)) as [E3 | L3 | G3];
      [destruct (Z.compare_spec (x mod 10) (y mod 10)) as [E4 | L4 | G4] | |] | |] | |].
  - assert (x = y) as -> by (Z.div_mod_to_equations; lia).
    by rewrite Z.compare_refl.
  - by rewrite (proj2 (Z.compare_lt_iff x y)) by (Z.div_mod_to_equations; lia).
  - by rewrite (proj2 (Z.compare_gt_iff x y)) by (Z.div_mod_to_equations; lia).
  - by rewrite (proj2 (Z.compare_lt_iff x y)) by (Z.div_mod_to_equations; lia).
  - by rewrite (proj2 (Z.compare_gt_iff x y)) by (Z.div_mod_to_equations; lia).
  - by rewrite (proj2 (Z.compare_lt_iff x y)) by (Z.div_mod_to_equations; lia).
  - by rewrite (proj2 (Z.compare_gt_iff x y)) by (Z.div_mod_to_equations; lia).
  - by rewrite (proj2 (Z.compare_lt_iff x y)) by (Z.div_mod_to_equations; lia).
  - by rewrite (proj2 (Z.compare_gt_iff x y)) by (Z.div_mod_to_equations; lia).
Qed.

Lemma strftime_date_compare (a b : date) :
  valid_date a = true -> valid_date b = true ->
  String.compare (strftime_date a) (strftime_date b) = date_compare a b.
Proof.
  intros Ha Hb.
  destruct (valid_date_bounds a Ha) as (Hya & Hma & Hda).
  destruct (valid_date_bounds b Hb) as (Hyb & Hmb & Hdb).
  unfold strftime_date, pad4, pad2, date_compare. simpl.
  rewrite !digit_compare.
  change (Ascii.compare "-" "-") with Eq. cbv iota.
  rewrite (compare_pad2 (day a) (day b) Eq) by assumption.
  replace (match (day a ?= day b)%Z with Eq => Eq | c => c end)
    with (day a ?= day b)%Z by (by destruct (day a ?= day b)%Z).
  rewrite (compare_pad2 (month a) (month b)) by assumption.
  by rewrite (compare_pad4 (year a) (year b)) by assumption.
Qed.



(** ** Further properties: seeding the database *)

Lemma wfor_add_project (objs : list (Z -> Project)) (w : InitDb.Work) :
  InitDb.wfor InitDb.add_project objs w =
    (Ok tt, {| InitDb.committed := InitDb.committed w;
               InitDb.view := InitDb.view w;
               InitDb.new_projects := InitDb.new_projects w ++ objs;
               InitDb.new_skills := InitDb.new_skills w |}).
Proof.
  revert w. induction objs as [|obj objs IH]; intros w.
  - unfold InitDb.wfor, InitDb.wret. rewrite app_nil_r. by destruct w.
  - change (InitDb.wfor InitDb.add_project (obj :: objs) w)
      with (InitDb.wfor InitDb.add_project objs (snd (InitDb.add_project obj w))).
    rewrite IH. unfold InitDb.add_project. cbn [snd InitDb.committed InitDb.view
      InitDb.new_projects InitDb.new_skills]. by rewrite <- app_assoc.
Qed.

Lemma wfor_add_skill (objs : list (Z -> Skill)) (w : InitDb.Work) :
  InitDb.wfor InitDb.add_skill objs w =
    (Ok tt, {| InitDb.committed := InitDb.committed w;
               InitDb.view := InitDb.view w;
               InitDb.new_projects := InitDb.new_projects w;
               InitDb.new_skills := InitDb.new_skills w ++ objs |}).
Proof.
  revert w. induction objs as [|obj objs IH]; intros w.
  - unfold InitDb.wfor, InitDb.wret. rewrite app_nil_r. by destruct w.
  - change (InitDb.wfor InitDb.add_skill (obj :: objs) w)
      with (InitDb.wfor InitDb.add_skill objs (snd (InitDb.add_skill obj w))).
    rewrite IH. unfold InitDb.add_skill. cbn [snd InitDb.committed InitDb.view
      InitDb.new_projects InitDb.new_skills]. by rewrite <- app_assoc.
Qed.

Lemma init_database_run be w :
  InitDb.fresh w ->
  InitDb.init_database be w =
    if query_fails be then (Raise SQLAlchemyError, w)
    else if commit_fails be
         then (Raise SQLAlchemyError, InitDb.opened (InitDb.committed w))
         else (Ok tt, InitDb.opened (InitDb.seeded_database be)).
Proof.
  intros [Hp Hk]. destruct w as [c v np nk].
  cbn [InitDb.new_projects InitDb.new_skills] in Hp, Hk. subst np nk.
  unfold InitDb.init_database, InitDb.wbind, InitDb.create_all, InitDb.wret,
    InitDb.delete_projects, InitDb.delete_skills, InitDb.delete_contact_messages.
  destruct (query_fails be); [reflexivity |].
  rewrite wfor_add_project, wfor_add_skill.
  unfold InitDb.wtry, InitDb.commit, InitDb.rollback, InitDb.wraise.
  cbn [InitDb.committed InitDb.view InitDb.new_projects InitDb.new_skills
       projects skills contact_messages app].
  destruct (commit_fails be); reflexivity.
Qed.



(** X16.  When the commit of [init_database] raises, the script rolls back
    and raises the error again: the deletions are undone, the committed
    database is the one before the run and nothing is left pending.  After
    [reset_database] the same failure leaves an empty database, because
    the tables were dropped before the seeding began. *)
Theorem init_database_commit_failure be w :
  InitDb.fresh w ->
  query_fails be = false -> commit_fails be = true ->
  InitDb.init_database be w =
    (Raise SQLAlchemyError, InitDb.opened (InitDb.committed w)) /\
  InitDb.reset_database be w =
    (Raise SQLAlchemyError, InitDb.opened InitDb.empty_database).
Proof.
  intros Hw Hq Hc. split.
  - by rewrite (init_database_run be w Hw), Hq, Hc.
  - unfold InitDb.reset_database, InitDb.wbind, InitDb.drop_all.
    destruct Hw as [Hp Hk]. rewrite init_database_run by (by split).
    by rewrite Hq, Hc.
Qed.

Lemma init_database_commit_failure_witness :
  InitDb.fresh (InitDb.opened (database Samples.seeded)) /\
  commit_fails Samples.commit_broken = true /\
  InitDb.init_database Samples.commit_broken (InitDb.opened (database Samples.seeded)) =
    (Raise SQLAlchemyError, InitDb.opened (database Samples.seeded)).
Proof.
  assert (H1 : InitDb.fresh (InitDb.opened (database Samples.seeded))) by (by split).
  split; [exact H1 |]. split; [reflexivity |].
  exact (proj1 (init_database_commit_failure Samples.commit_broken _ H1 eq_refl eq_refl)).
Defined.


